(** * Clinical Aggregator API: a shallow embedding of [app.py]

    The service receives an uploaded document, checks its extension and
    size, resolves a MIME type from the extension, sends the bytes to a
    hosted generative model and shapes the answer into a JSON response.

    Modelling conventions.
    - A Python [str] is a [string], the bytes of its UTF-8 encoding: looking
      for an ASCII character, splitting at one, testing a prefix and
      appending act on these bytes as they act on the [str].
    - [str.lower], [str.upper] and [str.strip] depend on the Unicode tables.
      In [Module Unicode] they are parameters of the service, about which
      nothing is assumed but what a statement says; there, too, reading
      [request.files] can raise. The definitions outside that module are
      the same service with the three methods fixed to what they do to
      ASCII characters, for a request whose body parses ([handle_parsed]);
      they carry the statements that do not depend on the difference: which
      names are accepted, which MIME type is resolved, what is done in
      which order.
    - A Python [int] is a [Z]; [bytes] is a [list byte], and a file size is
      the length of such a list.
    - The [dict] of MIME types is a [gmap], the [set] of extensions a
      [gset], the parsed [request.files] an association list (a multi-dict:
      the first binding of a key is the one that is read).
    - Calls that can raise run in a small monad that threads a trace of
      observable events and either returns a value or raises an instance of
      [Exception]; [try ... except Exception] is [try_except]. What can
      raise is [request.files], [file.read()], the call of the model,
      trimming a response without text, and a subscript of [request.files]
      at a missing key.
    - The hosted model is a parameter of the service: nothing is assumed of
      what it answers. *)

From Stdlib Require Import ZArith Ascii.
From stdpp Require Import base numbers list strings pretty gmap.

Local Open Scope Z_scope.

(** ** Python string primitives *)

Module Py.

(** [c.lower()] for one character. *)
Definition lower_char (c : ascii) : ascii :=
  let n := N_of_ascii c in
  if ((65 <=? n) && (n <=? 90))%N then ascii_of_N (n + 32) else c.

(** [c.upper()] for one character. *)
Definition upper_char (c : ascii) : ascii :=
  let n := N_of_ascii c in
  if ((97 <=? n) && (n <=? 122))%N then ascii_of_N (n - 32) else c.

(** [c.isspace()]: tab, line feed, vertical tab, form feed, carriage return,
    the four separators 0x1c-0x1f and the space. *)
Definition isspace (c : ascii) : bool :=
  let n := N_of_ascii c in
  (((9 <=? n) && (n <=? 13)) || ((28 <=? n) && (n <=? 32)))%N.

Fixpoint map_chars (f : ascii → ascii) (s : string) : string :=
  match s with
  | EmptyString => EmptyString
  | String c s' => String (f c) (map_chars f s')
  end.

(** [s.lower()] and [s.upper()]. *)
Definition lower (s : string) : string := map_chars lower_char s.
Definition upper (s : string) : string := map_chars upper_char s.

(** [c in s] for a one-character string [c]. *)
Fixpoint contains (c : ascii) (s : string) : bool :=
  match s with
  | EmptyString => false
  | String a s' => if decide (a = c) then true else contains c s'
  end.

(** [s.split(sep)] for a one-character separator: the list is never empty. *)
Fixpoint split (sep : ascii) (s : string) : list string :=
  match s with
  | EmptyString => [EmptyString]
  | String a s' =>
      if decide (a = sep) then EmptyString :: split sep s'
      else match split sep s' with
           | [] => [String a EmptyString]
           | h :: t => String a h :: t
           end
  end.

(** [s.split(sep, maxsplit)]: at most [maxsplit] cuts, from the left. *)
Fixpoint split_max (sep : ascii) (maxsplit : nat) (s : string) {struct s}
  : list string :=
  match maxsplit with
  | O => [s]
  | S m =>
      match s with
      | EmptyString => [EmptyString]
      | String a s' =>
          if decide (a = sep) then EmptyString :: split_max sep m s'
          else match split_max sep (S m) s' with
               | [] => [String a EmptyString]
               | h :: t => String a h :: t
               end
      end
  end.

(** [l[-1]] on the lists [split] returns, which always have an element. *)
Definition last_item (l : list string) : string := List.last l EmptyString.

(** [s.lstrip()], [s.rstrip()] and [s.strip()]. *)
Fixpoint lstrip (s : string) : string :=
  match s with
  | EmptyString => EmptyString
  | String c s' => if isspace c then lstrip s' else s
  end.

Fixpoint rstrip (s : string) : string :=
  match s with
  | EmptyString => EmptyString
  | String c s' =>
      match rstrip s' with
      | EmptyString => if isspace c then EmptyString else String c EmptyString
      | r => String c r
      end
  end.

Definition strip (s : string) : string := rstrip (lstrip s).

(** [s.startswith(p)]. *)
Definition startswith (s p : string) : bool := String.prefix p s.

(** [str(n)] for an integer, as an f-string prints it. *)
Definition str_int (n : Z) : string := pretty n.

(** Nearest integer to [num / den] for [den > 0], ties to the even one: the
    rounding of the [.1f] presentation type. *)
Definition round_half_even (num den : Z) : Z :=
  let q := num / den in
  let r := num mod den in
  if 2 * r <? den then q
  else if den <? 2 * r then q + 1
  else if Z.even q then q else q + 1.

End Py.

(** ** Helper functions of [app.py] *)

(** The expression shared by [get_mime_type] and [validate_file]:
    [filename.lower().split('.')[-1] if '.' in filename else '']. *)
Definition file_ext (filename : string) : string :=
  if Py.contains "."%char filename
  then Py.last_item (Py.split "."%char (Py.lower filename))
  else "".

Definition mime_map : gmap string string :=
  list_to_map
    [ ("pdf", "application/pdf");
      ("png", "image/png");
      ("jpg", "image/jpeg");
      ("jpeg", "image/jpeg");
      ("gif", "image/gif");
      ("webp", "image/webp");
      ("tiff", "image/tiff");
      ("tif", "image/tiff");
      ("bmp", "image/bmp") ].

Definition get_mime_type (filename : string) : string :=
  let ext := file_ext filename in
  default "application/octet-stream" (mime_map !! ext).

Definition allowed : gset string :=
  {[ "pdf"; "png"; "jpg"; "jpeg"; "gif"; "webp"; "tiff"; "tif"; "bmp" ]}.

Definition max_size : Z := 20 * 1024 * 1024.

(** [f"{file_size / 1024 / 1024:.1f}"]. Dividing a float by 1024 is exact and
    an integer below [2^53] converts to a float exactly, so the number that is
    printed is [file_size / 2^20] itself, rounded to tenths with ties to even.
    Used for [file_size > max_size] only, so no sign is printed. *)
Definition size_tenths (file_size : Z) : Z :=
  Py.round_half_even (10 * file_size) (1024 * 1024).

Definition format_mb (file_size : Z) : string :=
  let t := size_tenths file_size in
  Py.str_int (t / 10) +:+ "." +:+ Py.str_int (t mod 10).

Definition ext_reason (ext : string) : string :=
  "Formato ." +:+ ext +:+ " não suportado. Use: PDF, PNG, JPG, etc.".

Definition size_reason (file_size : Z) : string :=
  "Arquivo muito grande (" +:+ format_mb file_size +:+ "MB). Limite: 20MB".

Definition validate_file (filename : string) (file_size : Z) : bool * string :=
  let ext := file_ext filename in
  if decide (ext ∉ allowed) then (false, ext_reason ext)
  else if decide (file_size > max_size) then (false, size_reason file_size)
  else (true, "").

(** ** Requests, responses and effects *)

(** The route accepts [POST] and [OPTIONS]; Flask answers any other method
    itself, without calling the view. *)
Inductive http_method := POST | OPTIONS.

Global Instance http_method_eq_dec : EqDecision http_method.
Proof. solve_decision. Defined.

(** An instance of [Exception]; [exc_str] is what [str(e)] prints. *)
Record Exception := { exc_str : string }.

(** An uploaded part: its [filename] and what [file.read()] does. *)
Record FileStorage := {
  filename : string;
  read : Exception + list Byte.byte
}.

Record Request := {
  method : http_method;
  files : list (string * FileStorage)
}.

Record Metadata := {
  meta_filename : string;
  size_bytes : Z;
  mime_type : string
}.

(** The object handed to [jsonify]; a key that is left out is [None]. *)
Record Json := {
  success : bool;
  error : option string;
  message : string;
  metadata : option Metadata
}.

Inductive Body := EmptyBody | JsonBody (j : Json).

Record Response := { body : Body; status : Z }.

(** What a request makes the process do, in the order it happens. *)
Inductive event :=
| LogError (msg : string)
| LogInfo (msg : string)
| LogException (msg : string)
| FilesContains (field : string)
| FilesGetItem (field : string)
| FileRead (name : string)
| CallValidateFile (name : string) (size : Z)
| CallGetMimeType (name : string)
| CallGemini (data : list Byte.byte) (mime : string).

(** A computation appends to the trace and returns or raises. *)
Definition M (A : Type) : Type := list event → (Exception + A) * list event.

Global Instance M_ret : MRet M := λ A x tr, (inr x, tr).

Global Instance M_bind : MBind M := λ A B f c tr,
  match c tr with
  | (inl e, tr') => (inl e, tr')
  | (inr x, tr') => f x tr'
  end.

Global Instance M_throw : MThrow Exception M := λ A e tr, (inl e, tr).

Definition emit (ev : event) : M () := λ tr, (inr (), tr ++ [ev]).

Definition lift {A} (r : Exception + A) : M A :=
  match r with inl e => mthrow e | inr x => mret x end.

(** [try: body  except Exception as e: handler e]. *)
Definition try_except {A} (body : M A) (handler : Exception → M A) : M A :=
  λ tr, match body tr with
        | (inl e, tr') => handler e tr'
        | (inr x, tr') => (inr x, tr')
        end.

Definition files_lookup (field : string) (fs : list (string * FileStorage))
  : option FileStorage :=
  snd <$> List.find (λ kv, bool_decide (fst kv = field)) fs.

(** [field in request.files]. *)
Definition files_contains (field : string) (request : Request) : M bool :=
  emit (FilesContains field) ;;
  mret (bool_decide (is_Some (files_lookup field (files request)))).

(** [request.files[field]], a [KeyError] when the field is missing. *)
Definition files_getitem (field : string) (request : Request) : M FileStorage :=
  emit (FilesGetItem field) ;;
  match files_lookup field (files request) with
  | Some f => mret f
  | None => mthrow {| exc_str := "400 Bad Request: KeyError" |}
  end.

(** [file.read()]. *)
Definition file_read (file : FileStorage) : M (list Byte.byte) :=
  emit (FileRead (filename file)) ;; lift (read file).

(** [len(file_bytes)]. *)
Definition len (file_bytes : list Byte.byte) : Z := Z.of_nat (length file_bytes).

(** A global that is unset or empty is false as a condition. *)
Definition truthy (key : option string) : bool :=
  match key with
  | None => false
  | Some k => negb (bool_decide (k = ""))
  end.

Definition jsonify (j : Json) : Body := JsonBody j.

(** ** The service *)

Section Service.

(** [os.environ.get("GEMINI_API_KEY")], read once when the module is loaded. *)
Variable GEMINI_API_KEY : option string.

(** The hosted model behind [client.models.generate_content]: called with the
    file part (bytes and MIME type), the two fixed prompts and the fixed
    generation settings (temperature 0.1, at most 2000 output tokens), it
    raises or returns a response whose [text] may be [None]. *)
Variable generate_content : list Byte.byte → string → Exception + option string.

Definition process_with_gemini (file_bytes : list Byte.byte) (mime : string)
  : M string :=
  emit (CallGemini file_bytes mime) ;;
  text ← lift (generate_content file_bytes mime) ;
  match text with
  | Some t => mret (Py.strip t)
  | None =>
      mthrow {| exc_str := "'NoneType' object has no attribute 'strip'" |}
  end.

(** The body of the [try] block of [extract]. *)
Definition extract_try (file : FileStorage) : M Response :=
  file_bytes ← file_read file ;
  let filename := filename file in
  emit (LogInfo ("Processando arquivo: " +:+ filename +:+ " ("
                 +:+ Py.str_int (len file_bytes) +:+ " bytes)")) ;;
  emit (CallValidateFile filename (len file_bytes)) ;;
  let '(is_valid, error_msg) := validate_file filename (len file_bytes) in
  if negb is_valid then
    mret {| body := jsonify {| success := false;
                               error := Some "INVALID_FILE";
                               message := error_msg;
                               metadata := None |};
            status := 400 |}
  else
    emit (CallGetMimeType filename) ;;
    let mime_type := get_mime_type filename in
    result_text ← process_with_gemini file_bytes mime_type ;
    if Py.startswith (Py.upper result_text) "NOT_CLINICAL" then
      let reason :=
        if Py.contains ":"%char result_text
        then Py.strip (Py.last_item (Py.split_max ":"%char 1 result_text))
        else "Documento não clínico" in
      mret {| body := jsonify {| success := false;
                                 error := Some "NOT_CLINICAL";
                                 message :=
                                   "Documento não contém informações clínicas: "
                                   +:+ reason;
                                 metadata := None |};
              status := 200 |}
    else
      mret {| body := jsonify {| success := true;
                                 error := None;
                                 message := result_text;
                                 metadata :=
                                   Some {| meta_filename := filename;
                                           size_bytes := len file_bytes;
                                           mime_type := mime_type |} |};
              status := 200 |}.

(** The [except Exception as e] clause of [extract]. *)
Definition extract_except (e : Exception) : M Response :=
  emit (LogException ("Erro ao processar: " +:+ exc_str e)) ;;
  mret {| body := jsonify {| success := false;
                             error := Some "PROCESSING_ERROR";
                             message :=
                               "Erro ao processar documento. Tente novamente.";
                             metadata := None |};
          status := 500 |}.

(** The view function of [/extract]. *)
Definition extract (request : Request) : M Response :=
  if decide (method request = OPTIONS) then
    mret {| body := EmptyBody; status := 204 |}
  else if negb (truthy GEMINI_API_KEY) then
    emit (LogError "GEMINI_API_KEY não configurada") ;;
    mret {| body := jsonify {| success := false;
                               error := Some "CONFIG_ERROR";
                               message :=
                                 "API não configurada corretamente. Contate o administrador.";
                               metadata := None |};
            status := 500 |}
  else
    present ← files_contains "file" request ;
    if negb present then
      mret {| body := jsonify {| success := false;
                                 error := Some "NO_FILE";
                                 message :=
                                   "Nenhum arquivo enviado. Envie um arquivo no campo 'file'.";
                                 metadata := None |};
              status := 400 |}
    else
      file ← files_getitem "file" request ;
      if decide (filename file = "") then
        mret {| body := jsonify {| success := false;
                                   error := Some "NO_FILE";
                                   message := "Arquivo sem nome.";
                                   metadata := None |};
                status := 400 |}
      else
        try_except (extract_try file) extract_except.

(** The response and the trace of one request, from an empty trace. *)
Definition handle (request : Request) : (Exception + Response) * list event :=
  extract request [].

End Service.

(** ** The words of the specification *)

(** The extension of a file name: the text after its last ['.'], in lower
    case; the empty string when the name has no ['.']. *)
Inductive extension_of : string → string → Prop :=
| extension_none filename :
    Py.contains "."%char filename = false →
    extension_of filename ""
| extension_last stem suffix :
    Py.contains "."%char suffix = false →
    extension_of (stem +:+ "." +:+ suffix) (Py.lower suffix).

(** The extensions the validator accepts. *)
Definition spec_extensions : list string :=
  ["pdf"; "png"; "jpg"; "jpeg"; "gif"; "webp"; "tiff"; "tif"; "bmp"].

(** The MIME types the resolver can answer with. *)
Definition spec_mime_types : list string :=
  ["application/pdf"; "image/png"; "image/jpeg"; "image/gif"; "image/webp";
   "image/tiff"; "image/bmp"; "application/octet-stream"].

(** [needle] occurs in [s]. *)
Definition substring (needle s : string) : Prop :=
  ∃ before after, s = before +:+ needle +:+ after.

(** A configured service receives an upload named [file] in the field
    [file] of a [POST]. *)
Definition uploads (key : option string) (request : Request)
    (file : FileStorage) : Prop :=
  method request = POST ∧
  truthy key = true ∧
  files_lookup "file" (files request) = Some file ∧
  filename file ≠ "".

(** The event looks at the uploaded file: its field or its bytes. *)
Definition touches_upload (ev : event) : bool :=
  match ev with
  | FilesContains _ | FilesGetItem _ | FileRead _ => true
  | _ => false
  end.

(** The event is a call of the validator, the resolver or the model. *)
Definition calls_pipeline (ev : event) : bool :=
  match ev with
  | CallValidateFile _ _ | CallGetMimeType _ | CallGemini _ _ => true
  | _ => false
  end.

(** The events up to the [try] block. *)
Definition seen_lookup : list event :=
  [FilesContains "file"; FilesGetItem "file"].

(** The events of a read that succeeds, up to the call of the validator. *)
Definition seen_validation (file : FileStorage) (file_bytes : list Byte.byte)
  : list event :=
  [FileRead (filename file);
   LogInfo ("Processando arquivo: " +:+ filename file +:+ " ("
            +:+ Py.str_int (len file_bytes) +:+ " bytes)");
   CallValidateFile (filename file) (len file_bytes)].

(** The events of the two calls that follow a validation that passes. *)
Definition seen_extraction (file : FileStorage) (file_bytes : list Byte.byte)
  : list event :=
  [CallGetMimeType (filename file);
   CallGemini file_bytes (get_mime_type (filename file))].

(** ** Sample inputs *)

(** A model that answers every call with [text], and one that raises [e] at
    every call. *)
Definition answers (text : string)
  : list Byte.byte → string → Exception + option string :=
  λ _ _, inr (Some text).

Definition fails (e : Exception)
  : list Byte.byte → string → Exception + option string :=
  λ _ _, inl e.

(** A file part whose bytes can be read, and a [POST] that carries one part in
    the field [field]. *)
Definition part (name : string) (data : list Byte.byte) : FileStorage :=
  {| filename := name; read := inr data |}.

Definition post (field : string) (file : FileStorage) : Request :=
  {| method := POST; files := [(field, file)] |}.

(** [n] bytes of zeros, without building the list to know its length. *)
Definition zeros (n : Z) : list Byte.byte := replicate (Z.to_nat n) Byte.x00.

(** A stand-in for [str.upper] that knows one letter beyond ASCII: the
    dotless i, two bytes in UTF-8, whose upper case is the ASCII I. *)
Fixpoint dotless_i_to_I (s : string) : string :=
  match s with
  | EmptyString => EmptyString
  | String "196" (String "177" rest) => String "I" (dotless_i_to_I rest)
  | String c rest => String c (dotless_i_to_I rest)
  end.

Definition upper_with_dotless_i (s : string) : string :=
  Py.upper (dotless_i_to_I s).

(** ** The health route and the paths of a request *)

(** The object [health] hands to [jsonify]. *)
Record HealthJson := {
  health_status : string;
  gemini_configured : bool
}.

(** The view function of [/health]: [bool(GEMINI_API_KEY)] under the key
    [gemini_configured], with the default status 200. *)
Definition health (GEMINI_API_KEY : option string) : HealthJson * Z :=
  ({| health_status := "healthy";
      gemini_configured := truthy GEMINI_API_KEY |}, 200).

(** An error response of [extract]. *)
Definition failure (code msg : string) (st : Z) : Response :=
  {| body := JsonBody {| success := false;
                         error := Some code;
                         message := msg;
                         metadata := None |};
     status := st |}.

(** The response [extract] builds from the text [process_with_gemini]
    returned. *)
Definition classified (file : FileStorage) (file_bytes : list Byte.byte)
    (result_text : string) : Response :=
  if Py.startswith (Py.upper result_text) "NOT_CLINICAL" then
    failure "NOT_CLINICAL"
      ("Documento não contém informações clínicas: " +:+
       (if Py.contains ":"%char result_text
        then Py.strip (Py.last_item (Py.split_max ":"%char 1 result_text))
        else "Documento não clínico"))
      200
  else
    {| body := JsonBody
         {| success := true;
            error := None;
            message := result_text;
            metadata :=
              Some {| meta_filename := filename file;
                      size_bytes := len file_bytes;
                      mime_type := get_mime_type (filename file) |} |};
       status := 200 |}.

(** The ways through [extract], each with its response and its trace. *)
Inductive path (key : option string)
    (generate : list Byte.byte → string → Exception + option string)
    (request : Request) : Response → list event → Prop :=
| path_options :
    method request = OPTIONS →
    path key generate request {| body := EmptyBody; status := 204 |} []
| path_unconfigured :
    method request = POST →
    truthy key = false →
    path key generate request
      (failure "CONFIG_ERROR"
         "API não configurada corretamente. Contate o administrador." 500)
      [LogError "GEMINI_API_KEY não configurada"]
| path_no_field :
    method request = POST →
    truthy key = true →
    files_lookup "file" (files request) = None →
    path key generate request
      (failure "NO_FILE"
         "Nenhum arquivo enviado. Envie um arquivo no campo 'file'." 400)
      [FilesContains "file"]
| path_no_name file :
    method request = POST →
    truthy key = true →
    files_lookup "file" (files request) = Some file →
    filename file = "" →
    path key generate request
      (failure "NO_FILE" "Arquivo sem nome." 400) seen_lookup
| path_read_raises file e :
    uploads key request file →
    read file = inl e →
    path key generate request
      (failure "PROCESSING_ERROR"
         "Erro ao processar documento. Tente novamente." 500)
      (seen_lookup ++ [FileRead (filename file);
                       LogException ("Erro ao processar: " +:+ exc_str e)])
| path_invalid file file_bytes reason :
    uploads key request file →
    read file = inr file_bytes →
    validate_file (filename file) (len file_bytes) = (false, reason) →
    path key generate request
      (failure "INVALID_FILE" reason 400)
      (seen_lookup ++ seen_validation file file_bytes)
| path_model_raises file file_bytes e :
    uploads key request file →
    read file = inr file_bytes →
    fst (validate_file (filename file) (len file_bytes)) = true →
    generate file_bytes (get_mime_type (filename file)) = inl e ∨
    generate file_bytes (get_mime_type (filename file)) = inr None ∧
    e = {| exc_str := "'NoneType' object has no attribute 'strip'" |} →
    path key generate request
      (failure "PROCESSING_ERROR"
         "Erro ao processar documento. Tente novamente." 500)
      (seen_lookup ++ seen_validation file file_bytes
                   ++ seen_extraction file file_bytes
                   ++ [LogException ("Erro ao processar: " +:+ exc_str e)])
| path_classified file file_bytes raw :
    uploads key request file →
    read file = inr file_bytes →
    fst (validate_file (filename file) (len file_bytes)) = true →
    generate file_bytes (get_mime_type (filename file)) = inr (Some raw) →
    path key generate request
      (classified file file_bytes (Py.strip raw))
      (seen_lookup ++ seen_validation file file_bytes
                   ++ seen_extraction file file_bytes).

(** The calls of the model a trace records: the bytes and the MIME type of
    each, in order. *)
Fixpoint model_calls (tr : list event) : list (list Byte.byte * string) :=
  match tr with
  | [] => []
  | CallGemini data mime :: tr' => (data, mime) :: model_calls tr'
  | _ :: tr' => model_calls tr'
  end.

(** Whether a JSON body carries the key [metadata]. *)
Definition has_metadata (j : Json) : bool :=
  match metadata j with Some _ => true | None => false end.

(** The status, the [success] flag, the [error] code and the presence of
    [metadata] that go together in a JSON response of [extract]. *)
Definition response_rows : list (Z * bool * option string * bool) :=
  [ (200, true, None, true);
    (200, false, Some "NOT_CLINICAL", false);
    (400, false, Some "NO_FILE", false);
    (400, false, Some "INVALID_FILE", false);
    (500, false, Some "CONFIG_ERROR", false);
    (500, false, Some "PROCESSING_ERROR", false) ].

(** ** The service with Python's own string methods *)

(** What precedes fixes [str.lower], [str.upper] and [str.strip] to what they
    do to ASCII characters, and takes the multipart body as parsed. Here the
    three methods are parameters, standing for the Unicode-aware built-ins,
    and reading [request.files] can raise. Everything else is shared. *)
Module Unicode.

(** A request: [files] is what evaluating [request.files] does, which parses
    the body on demand and can raise. *)
Record Request := {
  method : http_method;
  files : Exception + list (string * FileStorage)
}.

(** [field in request.files]. *)
Definition files_contains (field : string) (request : Request) : M bool :=
  emit (FilesContains field) ;;
  parts ← lift (files request) ;
  mret (bool_decide (is_Some (files_lookup field parts))).

(** [request.files[field]], a [KeyError] when the field is missing. *)
Definition files_getitem (field : string) (request : Request) : M FileStorage :=
  emit (FilesGetItem field) ;;
  parts ← lift (files request) ;
  match files_lookup field parts with
  | Some f => mret f
  | None => mthrow {| exc_str := "400 Bad Request: KeyError" |}
  end.

Section Methods.

(** [s.lower()], [s.upper()] and [s.strip()]. *)
Variable lower upper strip : string → string.

Definition file_ext (filename : string) : string :=
  if Py.contains "."%char filename
  then Py.last_item (Py.split "."%char (lower filename))
  else "".

Definition get_mime_type (filename : string) : string :=
  let ext := file_ext filename in
  default "application/octet-stream" (mime_map !! ext).

Definition validate_file (filename : string) (file_size : Z) : bool * string :=
  let ext := file_ext filename in
  if decide (ext ∉ allowed) then (false, ext_reason ext)
  else if decide (file_size > max_size) then (false, size_reason file_size)
  else (true, "").

Variable GEMINI_API_KEY : option string.
Variable generate_content : list Byte.byte → string → Exception + option string.

Definition process_with_gemini (file_bytes : list Byte.byte) (mime : string)
  : M string :=
  emit (CallGemini file_bytes mime) ;;
  text ← lift (generate_content file_bytes mime) ;
  match text with
  | Some t => mret (strip t)
  | None =>
      mthrow {| exc_str := "'NoneType' object has no attribute 'strip'" |}
  end.

(** The body of the [try] block of [extract]. *)
Definition extract_try (file : FileStorage) : M Response :=
  file_bytes ← file_read file ;
  let filename := filename file in
  emit (LogInfo ("Processando arquivo: " +:+ filename +:+ " ("
                 +:+ Py.str_int (len file_bytes) +:+ " bytes)")) ;;
  emit (CallValidateFile filename (len file_bytes)) ;;
  let '(is_valid, error_msg) := validate_file filename (len file_bytes) in
  if negb is_valid then
    mret {| body := jsonify {| success := false;
                               error := Some "INVALID_FILE";
                               message := error_msg;
                               metadata := None |};
            status := 400 |}
  else
    emit (CallGetMimeType filename) ;;
    let mime_type := get_mime_type filename in
    result_text ← process_with_gemini file_bytes mime_type ;
    if Py.startswith (upper result_text) "NOT_CLINICAL" then
      let reason :=
        if Py.contains ":"%char result_text
        then strip (Py.last_item (Py.split_max ":"%char 1 result_text))
        else "Documento não clínico" in
      mret {| body := jsonify {| success := false;
                                 error := Some "NOT_CLINICAL";
                                 message :=
                                   "Documento não contém informações clínicas: "
                                   +:+ reason;
                                 metadata := None |};
              status := 200 |}
    else
      mret {| body := jsonify {| success := true;
                                 error := None;
                                 message := result_text;
                                 metadata :=
                                   Some {| meta_filename := filename;
                                           size_bytes := len file_bytes;
                                           mime_type := mime_type |} |};
              status := 200 |}.

(** The view function of [/extract]. *)
Definition extract (request : Request) : M Response :=
  if decide (method request = OPTIONS) then
    mret {| body := EmptyBody; status := 204 |}
  else if negb (truthy GEMINI_API_KEY) then
    emit (LogError "GEMINI_API_KEY não configurada") ;;
    mret {| body := jsonify {| success := false;
                               error := Some "CONFIG_ERROR";
                               message :=
                                 "API não configurada corretamente. Contate o administrador.";
                               metadata := None |};
            status := 500 |}
  else
    present ← files_contains "file" request ;
    if negb present then
      mret {| body := jsonify {| success := false;
                                 error := Some "NO_FILE";
                                 message :=
                                   "Nenhum arquivo enviado. Envie um arquivo no campo 'file'.";
                                 metadata := None |};
              status := 400 |}
    else
      file ← files_getitem "file" request ;
      if decide (filename file = "") then
        mret {| body := jsonify {| success := false;
                                   error := Some "NO_FILE";
                                   message := "Arquivo sem nome.";
                                   metadata := None |};
                status := 400 |}
      else
        try_except (extract_try file) extract_except.

(** The outcome and the trace of one request, from an empty trace: a
    response, or the exception that leaves the view. *)
Definition handle (request : Request) : (Exception + Response) * list event :=
  extract request [].

(** The extension of a file name: the text after the last ['.'] of the name
    in lower case; the empty string when the name has no ['.']. *)
Inductive extension_of : string → string → Prop :=
| extension_none filename :
    Py.contains "."%char filename = false →
    extension_of filename ""
| extension_last filename stem suffix :
    Py.contains "."%char filename = true →
    lower filename = stem +:+ "." +:+ suffix →
    Py.contains "."%char suffix = false →
    extension_of filename suffix.

(** A configured service receives, in a body that parses, an upload named
    [file] in the field [file] of a [POST]. *)
Definition uploads (request : Request) (file : FileStorage) : Prop :=
  method request = POST ∧
  truthy GEMINI_API_KEY = true ∧
  (∃ parts, files request = inr parts ∧
            files_lookup "file" parts = Some file) ∧
  filename file ≠ "".

(** The upload is read, passes the validator, and the model answers [raw]. *)
Definition extraction_returns (file : FileStorage)
    (file_bytes : list Byte.byte) (raw : string) : Prop :=
  read file = inr file_bytes ∧
  fst (validate_file (filename file) (len file_bytes)) = true ∧
  generate_content file_bytes (get_mime_type (filename file))
    = inr (Some raw).

(** Processing the upload raises [e] inside the [try] block: in
    [file.read()], or, after a read and a validation that succeed, in the
    call of the model or in trimming a response that carries no text. *)
Definition processing_raises (file : FileStorage) (e : Exception) : Prop :=
  read file = inl e ∨
  ∃ file_bytes,
    read file = inr file_bytes ∧
    fst (validate_file (filename file) (len file_bytes)) = true ∧
    (generate_content file_bytes (get_mime_type (filename file)) = inl e ∨
     generate_content file_bytes (get_mime_type (filename file)) = inr None ∧
     e = {| exc_str := "'NoneType' object has no attribute 'strip'" |}).

(** The events of the two calls that follow a validation that passes. *)
Definition seen_extraction (file : FileStorage) (file_bytes : list Byte.byte)
  : list event :=
  [CallGetMimeType (filename file);
   CallGemini file_bytes (get_mime_type (filename file))].

End Methods.

(** A [POST] whose body parses and carries one part in the field [field]. *)
Definition post (field : string) (file : FileStorage) : Request :=
  {| method := POST; files := inr [(field, file)] |}.

End Unicode.

(** A request of the first part, as one whose body parses. *)
Definition parsed (request : Request) : Unicode.Request :=
  {| Unicode.method := method request;
     Unicode.files := inr (files request) |}.

(** ** Tactics *)

(** Closed membership goals over the accepted extensions. *)
Ltac listed := unfold spec_extensions; set_unfold; auto 12.
Ltac not_listed :=
  let H := fresh in
  unfold spec_extensions; set_unfold; intros H; decompose [or] H;
  by try discriminate.

(** Find an event in a trace that is written out. *)
Ltac in_trace :=
  repeat first [apply list_elem_of_here | apply list_elem_of_further].

(** Unfold the monad and the effectful helpers, nothing else. *)
Ltac run :=
  cbv beta iota zeta delta
    [handle extract extract_try extract_except try_except process_with_gemini
     file_read files_contains files_getitem emit lift jsonify
     mbind mret mthrow M_bind M_ret M_throw].

(** The same for the service with Python's own string methods. *)
Ltac run_view :=
  cbv beta iota zeta delta
    [Unicode.handle Unicode.extract Unicode.extract_try extract_except
     try_except Unicode.process_with_gemini file_read
     Unicode.files_contains Unicode.files_getitem emit lift jsonify
     mbind mret mthrow M_bind M_ret M_throw].

(** ** Strings *)

Lemma app_cons c s t : String c s +:+ t = String c (s +:+ t).
Proof. reflexivity. Qed.

Lemma app_empty_l s : "" +:+ s = s.
Proof. reflexivity. Qed.

Lemma app_empty_r s : s +:+ "" = s.
Proof. induction s as [|c s IH]; [done|]. by rewrite app_cons, IH. Qed.

Lemma app_assoc_str s t u : (s +:+ t) +:+ u = s +:+ t +:+ u.
Proof. induction s as [|c s IH]; [done|]. by rewrite !app_cons, IH. Qed.

Lemma lower_char_dot c : Py.lower_char c = "."%char ↔ c = "."%char.
Proof. by destruct c as [[] [] [] [] [] [] [] []]. Qed.

Lemma map_chars_app f s t :
  Py.map_chars f (s +:+ t) = Py.map_chars f s +:+ Py.map_chars f t.
Proof. induction s as [|c s IH]; [done|]. by rewrite app_cons; simpl; rewrite IH. Qed.

Lemma contains_lower s :
  Py.contains "."%char (Py.lower s) = Py.contains "."%char s.
Proof.
  induction s as [|c s IH]; [done|]. simpl.
  destruct (decide (c = "."%char)) as [->|Hc].
  - rewrite decide_True; [done | by apply lower_char_dot].
  - rewrite decide_False; [exact IH | by rewrite lower_char_dot].
Qed.

Lemma contains_app sep s t :
  Py.contains sep (s +:+ t) = Py.contains sep s || Py.contains sep t.
Proof.
  induction s as [|c s IH]; [done|]. rewrite app_cons. simpl.
  by destruct (decide (c = sep)).
Qed.

Lemma contains_cut sep s :
  Py.contains sep s = true →
  ∃ stem suffix, s = stem +:+ String sep suffix ∧ Py.contains sep suffix = false.
Proof.
  induction s as [|c s IH]; [done|]. simpl. intros H.
  destruct (Py.contains sep s) eqn:Hs.
  - destruct IH as (stem & suffix & -> & Hsuf); [done|].
    by exists (String c stem), suffix.
  - destruct (decide (c = sep)) as [->|]; [|done]. by exists "", s.
Qed.

Lemma contains_first sep s :
  Py.contains sep s = true →
  ∃ before after, s = before +:+ String sep after ∧ Py.contains sep before = false.
Proof.
  induction s as [|c s IH]; [done|]. simpl. intros H.
  destruct (decide (c = sep)) as [->|Hc].
  - by exists "", s.
  - destruct IH as (before & after & -> & Hb); [done|].
    exists (String c before), after. split; [done|]. simpl.
    by destruct (decide (c = sep)).
Qed.

Lemma split_not_nil sep s : Py.split sep s ≠ [].
Proof.
  induction s as [|c s IH]; [done|]. simpl.
  destruct (decide (c = sep)); [done|]. by destruct (Py.split sep s).
Qed.

Lemma split_no_sep sep s : Py.contains sep s = false → Py.split sep s = [s].
Proof.
  induction s as [|c s IH]; [done|]. simpl.
  destruct (decide (c = sep)); [done|]. intros H. by rewrite IH.
Qed.

Lemma last_item_app l l' :
  l' ≠ [] → Py.last_item (l ++ l') = Py.last_item l'.
Proof.
  intros Hl'. unfold Py.last_item. induction l as [|x l IH]; [done|].
  simpl. rewrite IH. by destruct l, l'.
Qed.

Lemma split_app sep stem rest :
  ∃ h t, Py.split sep (stem +:+ String sep rest) = (h :: t) ++ Py.split sep rest.
Proof.
  induction stem as [|c stem (h & t & IH)].
  - exists "", []. rewrite app_empty_l. simpl. by rewrite decide_True.
  - rewrite app_cons. simpl. rewrite IH.
    destruct (decide (c = sep)).
    + by exists "", (h :: t).
    + by exists (String c h), t.
Qed.

Lemma split_last sep stem suffix :
  Py.contains sep suffix = false →
  Py.last_item (Py.split sep (stem +:+ String sep suffix)) = suffix.
Proof.
  intros Hsuf. destruct (split_app sep stem suffix) as (h & t & ->).
  rewrite last_item_app by apply split_not_nil.
  by rewrite split_no_sep.
Qed.

Lemma split_max_0 sep s : Py.split_max sep 0 s = [s].
Proof. by destruct s. Qed.

Lemma split_max_first sep before after :
  Py.contains sep before = false →
  Py.split_max sep 1 (before +:+ String sep after) = [before; after].
Proof.
  induction before as [|c before IH]; intros Hb.
  - rewrite app_empty_l. simpl. rewrite decide_True by done.
    by rewrite split_max_0.
  - rewrite app_cons. simpl in *.
    destruct (decide (c = sep)); [done|]. by rewrite IH.
Qed.

(** ** The extension of a file name *)

Lemma file_ext_cut stem suffix :
  Py.contains "."%char suffix = false →
  file_ext (stem +:+ "." +:+ suffix) = Py.lower suffix.
Proof.
  intros Hsuf. unfold file_ext.
  rewrite contains_app. replace (Py.contains "." ("." +:+ suffix)) with true by done.
  rewrite orb_true_r. unfold Py.lower. rewrite map_chars_app.
  change (Py.map_chars Py.lower_char ("." +:+ suffix))
    with (String "."%char (Py.lower suffix)).
  apply split_last. by rewrite contains_lower.
Qed.

Lemma file_ext_is_extension filename : extension_of filename (file_ext filename).
Proof.
  destruct (Py.contains "."%char filename) eqn:Hdot.
  - destruct (contains_cut _ _ Hdot) as (stem & suffix & -> & Hsuf).
    change (stem +:+ String "."%char suffix) with (stem +:+ "." +:+ suffix).
    rewrite file_ext_cut by done. by constructor.
  - unfold file_ext. rewrite Hdot. by constructor.
Qed.

Lemma extension_of_file_ext filename ext :
  extension_of filename ext → file_ext filename = ext.
Proof.
  destruct 1 as [filename Hdot|stem suffix Hsuf].
  - unfold file_ext. by rewrite Hdot.
  - by apply file_ext_cut.
Qed.

Lemma allowed_spec ext : ext ∈ allowed ↔ ext ∈ spec_extensions.
Proof. unfold allowed, spec_extensions. set_unfold. tauto. Qed.

Lemma mime_map_lookup ext :
  mime_map !! ext =
    if decide (ext = "pdf") then Some "application/pdf"
    else if decide (ext = "png") then Some "image/png"
    else if decide (ext = "jpg") then Some "image/jpeg"
    else if decide (ext = "jpeg") then Some "image/jpeg"
    else if decide (ext = "gif") then Some "image/gif"
    else if decide (ext = "webp") then Some "image/webp"
    else if decide (ext = "tiff") then Some "image/tiff"
    else if decide (ext = "tif") then Some "image/tiff"
    else if decide (ext = "bmp") then Some "image/bmp"
    else None.
Proof.
  unfold mime_map. simpl.
  repeat (rewrite lookup_insert; destruct (decide (_ = ext)) as [<-|?];
          [done|rewrite decide_False by done]).
  apply lookup_empty.
Qed.

Lemma mime_map_dom ext : is_Some (mime_map !! ext) ↔ ext ∈ spec_extensions.
Proof.
  rewrite mime_map_lookup. unfold spec_extensions.
  repeat (destruct (decide _) as [->|?]; [split; [set_unfold; tauto|by eauto]|]).
  split; [by intros [??]|]. set_unfold. tauto.
Qed.

(** ** The validator, case by case *)

Lemma validate_file_rejects_ext filename file_size :
  file_ext filename ∉ allowed →
  validate_file filename file_size = (false, ext_reason (file_ext filename)).
Proof. intros H. unfold validate_file. by rewrite decide_True. Qed.

Lemma validate_file_rejects_size filename file_size :
  file_ext filename ∈ allowed → file_size > max_size →
  validate_file filename file_size = (false, size_reason file_size).
Proof.
  intros Hext Hsize. unfold validate_file.
  rewrite decide_False by (by intros Hn). by rewrite decide_True.
Qed.

Lemma validate_file_accepts filename file_size :
  file_ext filename ∈ allowed → file_size ≤ max_size →
  validate_file filename file_size = (true, "").
Proof.
  intros Hext Hsize. unfold validate_file.
  rewrite decide_False by (by intros Hn). by rewrite decide_False by lia.
Qed.

Lemma ext_reason_not_size_reason ext file_size :
  ext_reason ext ≠ size_reason file_size.
Proof. unfold ext_reason, size_reason. discriminate. Qed.

Lemma substring_middle before needle after :
  substring needle (before +:+ needle +:+ after).
Proof. by exists before, after. Qed.

(** ** The MIME resolver and the validator *)

(** C7: [get_mime_type] answers for every file name with one of nine MIME
    types: with the extension of the name being pdf, png, jpg, jpeg, gif,
    webp, tiff, tif or bmp the answer is the MIME type of the table, and with
    any other extension, the empty one of a name without a dot included, it
    is application/octet-stream. *)
Theorem get_mime_type_table filename ext :
  extension_of filename ext →
  get_mime_type filename ∈ spec_mime_types ∧
  (ext = "pdf" → get_mime_type filename = "application/pdf") ∧
  (ext = "png" → get_mime_type filename = "image/png") ∧
  (ext = "jpg" → get_mime_type filename = "image/jpeg") ∧
  (ext = "jpeg" → get_mime_type filename = "image/jpeg") ∧
  (ext = "gif" → get_mime_type filename = "image/gif") ∧
  (ext = "webp" → get_mime_type filename = "image/webp") ∧
  (ext = "tiff" → get_mime_type filename = "image/tiff") ∧
  (ext = "tif" → get_mime_type filename = "image/tiff") ∧
  (ext = "bmp" → get_mime_type filename = "image/bmp") ∧
  (ext ∉ spec_extensions → get_mime_type filename = "application/octet-stream").
Proof.
  intros Hext. apply extension_of_file_ext in Hext.
  unfold get_mime_type. rewrite Hext. split.
  { rewrite mime_map_lookup. unfold spec_mime_types.
    repeat (case_decide; [set_unfold; simpl; auto 12|]).
    set_unfold; simpl; auto 12. }
  repeat (split; [by intros ->|]).
  intros Hnot. rewrite <- mime_map_dom in Hnot.
  by destruct (mime_map !! ext) as [m|]; [destruct Hnot; eauto|].
Qed.

Lemma get_mime_type_table_witness :
  extension_of "laudo.final.JPeG" "jpeg" ∧
  get_mime_type "laudo.final.JPeG" = "image/jpeg" ∧
  get_mime_type "README" = "application/octet-stream".
Proof.
  pose (Hdot := extension_last "laudo.final" "JPeG" eq_refl).
  pose (Hnone := extension_none "README" eq_refl).
  destruct (get_mime_type_table "laudo.final.JPeG" "jpeg" Hdot)
    as (_ & _ & _ & _ & Hjpeg & _).
  destruct (get_mime_type_table "README" "" Hnone)
    as (_ & _ & _ & _ & _ & _ & _ & _ & _ & _ & Hother).
  split; [exact Hdot|]. split.
  - by apply Hjpeg.
  - apply Hother. not_listed.
Defined.

(** C3: [validate_file] accepts exactly when the extension of the name is one
    of pdf, png, jpg, jpeg, gif, webp, tiff, tif, bmp and the size is at most
    20 * 1024 * 1024 bytes; a larger size is refused whatever the extension,
    and an extension outside the set, the missing one included, is refused
    whatever the size. *)
Theorem validate_file_ok_iff filename ext file_size :
  extension_of filename ext →
  0 ≤ file_size →
  (fst (validate_file filename file_size) = true ↔
     ext ∈ spec_extensions ∧ file_size ≤ 20 * 1024 * 1024) ∧
  (file_size > 20 * 1024 * 1024 →
     fst (validate_file filename file_size) = false) ∧
  (ext ∉ spec_extensions →
     fst (validate_file filename file_size) = false).
Proof.
  intros Hext _. apply extension_of_file_ext in Hext. subst ext.
  rewrite <- allowed_spec. change (20 * 1024 * 1024) with max_size.
  destruct (decide (file_ext filename ∈ allowed)) as [Hin|Hout].
  - destruct (decide (file_size ≤ max_size)) as [Hle|Hgt].
    + rewrite validate_file_accepts by done. simpl.
      split; [done|]. split; [lia|done].
    + rewrite validate_file_rejects_size by (done || lia). simpl.
      split; [|done]. split; [done|]. by intros [_ ?].
  - rewrite validate_file_rejects_ext by done. simpl.
    split; [|done]. split; [done|]. by intros [? _].
Qed.

Lemma validate_file_ok_iff_witness :
  fst (validate_file "exame.TIF" 4096) = true ∧
  fst (validate_file "exame.TIF" 20971521) = false ∧
  fst (validate_file "exame" 4096) = false.
Proof.
  pose (Hdot := extension_last "exame" "TIF" eq_refl).
  pose (Hnone := extension_none "exame" eq_refl).
  assert (H0 : 0 ≤ 4096) by lia.
  assert (H1 : 0 ≤ 20971521) by lia.
  destruct (validate_file_ok_iff "exame.TIF" "tif" 4096 Hdot H0) as (Hiff & _ & _).
  destruct (validate_file_ok_iff "exame.TIF" "tif" 20971521 Hdot H1) as (_ & Hbig & _).
  destruct (validate_file_ok_iff "exame" "" 4096 Hnone H0) as (_ & _ & Hbad).
  split; [|split].
  - apply Hiff. split; [listed|lia].
  - apply Hbig. lia.
  - apply Hbad. not_listed.
Defined.

(** ** Running the handler *)

Lemma extract_enters_try key generate request file :
  method request = POST →
  truthy key = true →
  files_lookup "file" (files request) = Some file →
  filename file ≠ "" →
  handle key generate request =
    try_except (extract_try generate file) extract_except seen_lookup.
Proof.
  intros Hm Hk Hf Hn. unfold handle, extract.
  rewrite decide_False by (by rewrite Hm). rewrite Hk. simpl negb. cbv iota.
  unfold files_contains, files_getitem. rewrite Hf.
  rewrite bool_decide_eq_true_2 by eauto.
  run. simpl app. by rewrite decide_False.
Qed.

Lemma extract_try_read_raises generate file e tr :
  read file = inl e →
  extract_try generate file tr = (inl e, tr ++ [FileRead (filename file)]).
Proof. intros Hr. run. by rewrite Hr. Qed.

Lemma extract_try_invalid generate file file_bytes reason tr :
  read file = inr file_bytes →
  validate_file (filename file) (len file_bytes) = (false, reason) →
  extract_try generate file tr =
    (inr {| body := JsonBody {| success := false;
                                error := Some "INVALID_FILE";
                                message := reason;
                                metadata := None |};
            status := 400 |},
     tr ++ seen_validation file file_bytes).
Proof.
  intros Hr Hv. run. rewrite Hr, Hv. cbv beta iota delta [negb].
  by rewrite <- !(assoc_L (++)).
Qed.

Lemma extract_try_valid generate file file_bytes tr :
  read file = inr file_bytes →
  fst (validate_file (filename file) (len file_bytes)) = true →
  extract_try generate file tr =
    match generate file_bytes (get_mime_type (filename file)) with
    | inl e =>
        (inl e, tr ++ seen_validation file file_bytes
                   ++ seen_extraction file file_bytes)
    | inr None =>
        (inl {| exc_str := "'NoneType' object has no attribute 'strip'" |},
         tr ++ seen_validation file file_bytes
            ++ seen_extraction file file_bytes)
    | inr (Some raw) =>
        let result_text := Py.strip raw in
        (inr
           (if Py.startswith (Py.upper result_text) "NOT_CLINICAL" then
              {| body := JsonBody
                   {| success := false;
                      error := Some "NOT_CLINICAL";
                      message :=
                        "Documento não contém informações clínicas: " +:+
                        (if Py.contains ":"%char result_text
                         then Py.strip (Py.last_item
                                (Py.split_max ":"%char 1 result_text))
                         else "Documento não clínico");
                      metadata := None |};
                 status := 200 |}
            else
              {| body := JsonBody
                   {| success := true;
                      error := None;
                      message := result_text;
                      metadata :=
                        Some {| meta_filename := filename file;
                                size_bytes := len file_bytes;
                                mime_type := get_mime_type (filename file) |} |};
                 status := 200 |}),
         tr ++ seen_validation file file_bytes
            ++ seen_extraction file file_bytes)
    end.
Proof.
  intros Hr Hv. run. rewrite Hr.
  destruct (validate_file (filename file) (len file_bytes)) as [ok reason].
  simpl in Hv. subst ok.
  unfold seen_validation, seen_extraction.
  destruct (generate file_bytes (get_mime_type (filename file))) as [e|[raw|]];
    cbv beta iota zeta delta [negb]; try destruct (Py.startswith _ _);
    by rewrite <- !(assoc_L (++)).
Qed.

Lemma extract_options key generate request :
  method request = OPTIONS →
  handle key generate request = (inr {| body := EmptyBody; status := 204 |}, []).
Proof. intros Hm. unfold handle, extract. by rewrite decide_True. Qed.

Lemma extract_unconfigured key generate request :
  method request = POST →
  truthy key = false →
  handle key generate request =
    (inr {| body := JsonBody
              {| success := false;
                 error := Some "CONFIG_ERROR";
                 message :=
                   "API não configurada corretamente. Contate o administrador.";
                 metadata := None |};
            status := 500 |},
     [LogError "GEMINI_API_KEY não configurada"]).
Proof.
  intros Hm Hk. unfold handle, extract.
  rewrite decide_False by (by rewrite Hm). by rewrite Hk.
Qed.

Lemma extract_no_field key generate request :
  method request = POST →
  truthy key = true →
  files_lookup "file" (files request) = None →
  handle key generate request =
    (inr {| body := JsonBody
              {| success := false;
                 error := Some "NO_FILE";
                 message :=
                   "Nenhum arquivo enviado. Envie um arquivo no campo 'file'.";
                 metadata := None |};
            status := 400 |},
     [FilesContains "file"]).
Proof.
  intros Hm Hk Hf. unfold handle, extract.
  rewrite decide_False by (by rewrite Hm). rewrite Hk.
  unfold files_contains. rewrite Hf.
  rewrite bool_decide_eq_false_2 by (by intros [??]). done.
Qed.

Lemma extract_no_name key generate request file :
  method request = POST →
  truthy key = true →
  files_lookup "file" (files request) = Some file →
  filename file = "" →
  handle key generate request =
    (inr {| body := JsonBody
              {| success := false;
                 error := Some "NO_FILE";
                 message := "Arquivo sem nome.";
                 metadata := None |};
            status := 400 |},
     seen_lookup).
Proof.
  intros Hm Hk Hf Hn. unfold handle, extract.
  rewrite decide_False by (by rewrite Hm). rewrite Hk. simpl negb. cbv iota.
  unfold files_contains, files_getitem. rewrite Hf.
  rewrite bool_decide_eq_true_2 by eauto.
  run. simpl app. by rewrite decide_True.
Qed.

Lemma try_except_caught generate file e tr tr' :
  extract_try generate file tr = (inl e, tr') →
  try_except (extract_try generate file) extract_except tr =
    (inr {| body := JsonBody
              {| success := false;
                 error := Some "PROCESSING_ERROR";
                 message := "Erro ao processar documento. Tente novamente.";
                 metadata := None |};
            status := 500 |},
     tr' ++ [LogException ("Erro ao processar: " +:+ exc_str e)]).
Proof. intros H. unfold try_except. by rewrite H. Qed.

Lemma try_except_returned generate file response tr tr' :
  extract_try generate file tr = (inr response, tr') →
  try_except (extract_try generate file) extract_except tr = (inr response, tr').
Proof. intros H. unfold try_except. by rewrite H. Qed.

Lemma round_half_even_near num den :
  0 < den →
  2 * Z.abs (num - den * Py.round_half_even num den) ≤ den.
Proof.
  intros Hden. unfold Py.round_half_even.
  pose proof (Z.div_mod num den) as Hdm.
  pose proof (Z.mod_pos_bound num den Hden) as Hr.
  repeat case_match; lia.
Qed.

(** ** The request handler *)

(** C4 as stated fails: over the cap, a name whose extension is not accepted
    is refused for its extension, and the reason says nothing of the size. *)
Lemma validate_file_too_large_counterexample :
  25 * 1024 * 1024 > 20 * 1024 * 1024 ∧
  validate_file "setup.exe" (25 * 1024 * 1024) =
    (false, "Formato .exe não suportado. Use: PDF, PNG, JPG, etc.") ∧
  ∀ reported,
    snd (validate_file "setup.exe" (25 * 1024 * 1024)) ≠ size_reason reported.
Proof.
  split; [lia|]. split; [by vm_compute|].
  intros reported. apply (ext_reason_not_size_reason "exe").
Qed.

(** C4, amended: for a name whose extension is accepted and a size over
    20 * 1024 * 1024 bytes, [validate_file] refuses with a reason that gives
    the size in MB with one decimal, the nearest tenth of size / 2^20; and a
    configured service that reads such an upload answers HTTP 400 with error
    INVALID_FILE and that reason as message. *)
Theorem validate_file_too_large name ext file_size :
  extension_of name ext →
  ext ∈ spec_extensions →
  file_size > 20 * 1024 * 1024 →
  ∃ tenths reason,
    2 * Z.abs (10 * file_size - 1024 * 1024 * tenths) ≤ 1024 * 1024 ∧
    reason = "Arquivo muito grande (" +:+ Py.str_int (tenths / 10) +:+ "."
             +:+ Py.str_int (tenths mod 10) +:+ "MB). Limite: 20MB" ∧
    validate_file name file_size = (false, reason) ∧
    ∀ key generate request file file_bytes,
      uploads key request file →
      filename file = name →
      read file = inr file_bytes →
      Z.of_nat (length file_bytes) = file_size →
      ∃ tr,
        handle key generate request =
          (inr {| body := JsonBody
                    {| success := false;
                       error := Some "INVALID_FILE";
                       message := reason;
                       metadata := None |};
                  status := 400 |}, tr).
Proof.
  intros Hext Hin Hsize. apply extension_of_file_ext in Hext. subst ext.
  rewrite <- allowed_spec in Hin.
  exists (size_tenths file_size), (size_reason file_size).
  split; [apply round_half_even_near; lia|].
  split; [unfold size_reason, format_mb; by rewrite !app_assoc_str|].
  assert (validate_file name file_size = (false, size_reason file_size))
    as Hv by (by apply validate_file_rejects_size).
  split; [done|].
  intros key generate request file file_bytes (Hm & Hk & Hf & Hn) <- Hr Hlen.
  erewrite extract_enters_try by done.
  erewrite try_except_returned; [by eexists|].
  apply extract_try_invalid; [done|]. unfold len. by rewrite Hlen.
Qed.

Lemma validate_file_too_large_witness :
  validate_file "tomografia.pdf" (25 * 1024 * 1024) =
    (false, "Arquivo muito grande (25.0MB). Limite: 20MB") ∧
  ∃ tr,
    handle (Some "secret") (answers "")
      (post "file" (part "tomografia.pdf" (zeros (25 * 1024 * 1024)))) =
      (inr {| body := JsonBody
                {| success := false;
                   error := Some "INVALID_FILE";
                   message := "Arquivo muito grande (25.0MB). Limite: 20MB";
                   metadata := None |};
              status := 400 |}, tr).
Proof.
  destruct (validate_file_too_large "tomografia.pdf" "pdf" (25 * 1024 * 1024))
    as (tenths & reason & Hnear & Hreason & Hv & Hhandle).
  - exact (extension_last "tomografia" "pdf" eq_refl).
  - listed.
  - lia.
  - assert (reason = "Arquivo muito grande (25.0MB). Limite: 20MB") as ->.
    { assert (validate_file "tomografia.pdf" (25 * 1024 * 1024) =
                (false, "Arquivo muito grande (25.0MB). Limite: 20MB")) as Hc
        by (by vm_compute).
      rewrite Hc in Hv. by injection Hv. }
    split; [exact Hv|].
    apply (Hhandle (Some "secret") (answers "")
             (post "file" (part "tomografia.pdf" (zeros (25 * 1024 * 1024))))
             (part "tomografia.pdf" (zeros (25 * 1024 * 1024)))
             (zeros (25 * 1024 * 1024))).
    + split; [done|]. split; [done|]. split; [|by intros [=]].
      unfold post, files_lookup. simpl files. unfold List.find. simpl fst.
      by rewrite bool_decide_eq_true_2.
    + done.
    + done.
    + unfold zeros. rewrite length_replicate. apply Z2Nat.id. lia.
Defined.

(** C6 as stated fails: with the credential unset, an [OPTIONS] call of
    [/extract] is answered with an empty HTTP 204, not with CONFIG_ERROR. *)
Lemma extract_config_error_counterexample :
  handle None (answers "") {| method := OPTIONS; files := [] |} =
    (inr {| body := EmptyBody; status := 204 |}, []) ∧
  ∀ any_body tr,
    handle None (answers "") {| method := OPTIONS; files := [] |} ≠
      (inr {| body := any_body; status := 500 |}, tr).
Proof. split; [reflexivity|]. by intros any_body tr [=]. Qed.

(** C6, amended: with the credential unset (or empty), every [POST] to
    [/extract] is answered with HTTP 500 and error CONFIG_ERROR, and all the
    request has caused by then is one line in the log: neither the file
    field was looked up nor any byte of a file read. *)
Theorem extract_config_error key generate request :
  method request = POST →
  truthy key = false →
  ∃ tr,
    handle key generate request =
      (inr {| body := JsonBody
                {| success := false;
                   error := Some "CONFIG_ERROR";
                   message :=
                     "API não configurada corretamente. Contate o administrador.";
                   metadata := None |};
              status := 500 |}, tr) ∧
    tr = [LogError "GEMINI_API_KEY não configurada"] ∧
    Forall (λ ev, touches_upload ev = false) tr.
Proof.
  intros Hm Hk. rewrite extract_unconfigured by done.
  eexists. split; [done|]. split; [done|]. by repeat constructor.
Qed.

Lemma extract_config_error_witness :
  ∃ tr,
    handle None (answers "Masc, 45a.")
      (post "file" (part "nota.pdf" [Byte.x25; Byte.x50])) =
      (inr {| body := JsonBody
                {| success := false;
                   error := Some "CONFIG_ERROR";
                   message :=
                     "API não configurada corretamente. Contate o administrador.";
                   metadata := None |};
              status := 500 |}, tr) ∧
    tr = [LogError "GEMINI_API_KEY não configurada"] ∧
    Forall (λ ev, touches_upload ev = false) tr.
Proof.
  apply (extract_config_error None (answers "Masc, 45a.")
           (post "file" (part "nota.pdf" [Byte.x25; Byte.x50])));
    reflexivity.
Defined.

(** C8 as stated fails: a [POST] without a file to a service whose credential
    is unset is answered with HTTP 500 and CONFIG_ERROR, not with NO_FILE. *)
Lemma extract_no_file_counterexample :
  handle None (answers "") {| method := POST; files := [] |} =
    (inr {| body := JsonBody
              {| success := false;
                 error := Some "CONFIG_ERROR";
                 message :=
                   "API não configurada corretamente. Contate o administrador.";
                 metadata := None |};
            status := 500 |},
     [LogError "GEMINI_API_KEY não configurada"]) ∧
  ∀ any_body tr,
    handle None (answers "") {| method := POST; files := [] |} ≠
      (inr {| body := any_body; status := 400 |}, tr).
Proof. split; [reflexivity|]. by intros any_body tr [=]. Qed.

(** C8, amended: with the credential configured, a [POST] to [/extract] that
    has no field [file], or whose file has an empty name, is answered with
    HTTP 400 and error NO_FILE, and neither the validator nor the MIME
    resolver nor the model is called. *)
Theorem extract_no_file key generate request :
  method request = POST →
  truthy key = true →
  files_lookup "file" (files request) = None ∨
  (∃ file, files_lookup "file" (files request) = Some file ∧
           filename file = "") →
  ∃ msg tr,
    handle key generate request =
      (inr {| body := JsonBody
                {| success := false;
                   error := Some "NO_FILE";
                   message := msg;
                   metadata := None |};
              status := 400 |}, tr) ∧
    Forall (λ ev, calls_pipeline ev = false) tr.
Proof.
  intros Hm Hk [Hf|(file & Hf & Hn)].
  - rewrite extract_no_field by done.
    eexists _, _. split; [done|]. by repeat constructor.
  - erewrite extract_no_name by done.
    eexists _, _. split; [done|]. by repeat constructor.
Qed.

Lemma extract_no_file_witness :
  (∃ msg tr,
     handle (Some "secret") (answers "Masc, 45a.")
       (post "document" (part "nota.pdf" [Byte.x25; Byte.x50])) =
       (inr {| body := JsonBody
                 {| success := false;
                    error := Some "NO_FILE";
                    message := msg;
                    metadata := None |};
               status := 400 |}, tr) ∧
     Forall (λ ev, calls_pipeline ev = false) tr) ∧
  (∃ msg tr,
     handle (Some "secret") (answers "Masc, 45a.")
       (post "file" (part "" [Byte.x25; Byte.x50])) =
       (inr {| body := JsonBody
                 {| success := false;
                    error := Some "NO_FILE";
                    message := msg;
                    metadata := None |};
               status := 400 |}, tr) ∧
     Forall (λ ev, calls_pipeline ev = false) tr).
Proof.
  split.
  - apply (extract_no_file (Some "secret") (answers "Masc, 45a.")
             (post "document" (part "nota.pdf" [Byte.x25; Byte.x50])));
      [reflexivity|reflexivity|by left].
  - apply (extract_no_file (Some "secret") (answers "Masc, 45a.")
             (post "file" (part "" [Byte.x25; Byte.x50])));
      [reflexivity|reflexivity|].
    right. by exists (part "" [Byte.x25; Byte.x50]).
Defined.

(** ** Every request takes one of the paths *)

Lemma handle_path key generate request :
  ∃ response tr,
    handle key generate request = (inr response, tr) ∧
    path key generate request response tr.
Proof.
  destruct (method request) eqn:Hm;
    [|rewrite extract_options by done; eexists _, _; split; [done|];
      by constructor].
  destruct (truthy key) eqn:Hk;
    [|rewrite extract_unconfigured by done; eexists _, _; split; [done|];
      by constructor].
  destruct (files_lookup "file" (files request)) as [file|] eqn:Hf;
    [|rewrite extract_no_field by done; eexists _, _; split; [done|];
      by constructor].
  destruct (decide (filename file = "")) as [Hn|Hn];
    [erewrite extract_no_name by done; eexists _, _; split; [done|];
     by econstructor|].
  assert (uploads key request file) as Hup by done.
  erewrite extract_enters_try by done.
  destruct (read file) as [e|file_bytes] eqn:Hr.
  { erewrite try_except_caught by (by apply extract_try_read_raises).
    eexists _, _. split; [done|]. rewrite <- (assoc_L (++)).
    by apply path_read_raises. }
  destruct (validate_file (filename file) (len file_bytes))
    as [[|] reason] eqn:Hv.
  2:{ erewrite try_except_returned by (by eapply extract_try_invalid).
      eexists _, _. split; [done|]. by eapply path_invalid. }
  assert (fst (validate_file (filename file) (len file_bytes)) = true)
    as Hok by (by rewrite Hv).
  pose proof (extract_try_valid generate file file_bytes seen_lookup Hr Hok)
    as Ht.
  destruct (generate file_bytes (get_mime_type (filename file)))
    as [e|[raw|]] eqn:Hg.
  - erewrite try_except_caught by done.
    eexists _, _. split; [done|]. rewrite <- !(assoc_L (++)).
    eapply path_model_raises; eauto.
  - erewrite try_except_returned by done.
    eexists _, _. split; [done|]. by eapply path_classified.
  - erewrite try_except_caught by done.
    eexists _, _. split; [done|]. rewrite <- !(assoc_L (++)).
    eapply path_model_raises; eauto.
Qed.

(** ** More on the helper functions *)

Lemma lower_char_idemp c : Py.lower_char (Py.lower_char c) = Py.lower_char c.
Proof. by destruct c as [[] [] [] [] [] [] [] []]. Qed.

Lemma lower_idemp s : Py.lower (Py.lower s) = Py.lower s.
Proof.
  unfold Py.lower. induction s as [|c s IH]; [done|]. simpl.
  by rewrite lower_char_idemp, IH.
Qed.

Lemma mime_default_iff ext :
  default "application/octet-stream" (mime_map !! ext)
    = "application/octet-stream" ↔ ext ∉ allowed.
Proof.
  rewrite allowed_spec, <- mime_map_dom, mime_map_lookup.
  repeat (case_decide; [split; [done|]; intros []; by eauto|]).
  split; [|done]. by intros _ [??].
Qed.

(** X1: the two tables agree. The extension test of [validate_file] passes
    for exactly the names [get_mime_type] does not send to the default
    application/octet-stream; a file that is accepted never gets the default
    MIME type. *)
Theorem allowed_iff_known_mime filename file_size :
  (file_ext filename ∈ allowed ↔
   get_mime_type filename ≠ "application/octet-stream") ∧
  (fst (validate_file filename file_size) = true →
   get_mime_type filename ≠ "application/octet-stream").
Proof.
  assert (file_ext filename ∈ allowed ↔
          get_mime_type filename ≠ "application/octet-stream") as Hiff.
  { unfold get_mime_type. rewrite mime_default_iff.
    split; [by intros ? ?|]. intros Hnn.
    by destruct (decide (file_ext filename ∈ allowed)). }
  split; [done|]. intros Hok. apply Hiff.
  destruct (decide (file_ext filename ∈ allowed)) as [|Hout]; [done|].
  by rewrite validate_file_rejects_ext in Hok.
Qed.

(** X3: [validate_file] gives an empty reason exactly when it accepts: every
    refusal comes with a text. *)
Theorem validate_file_reason_empty_iff filename file_size :
  fst (validate_file filename file_size) = true ↔
  snd (validate_file filename file_size) = "".
Proof.
  destruct (decide (file_ext filename ∈ allowed)) as [Hin|Hout].
  - destruct (decide (file_size ≤ max_size)) as [Hle|Hgt].
    + by rewrite validate_file_accepts.
    + rewrite validate_file_rejects_size by (done || lia). simpl.
      split; [done|]. unfold size_reason. discriminate.
  - rewrite validate_file_rejects_ext by done. simpl.
    split; [done|]. unfold ext_reason. discriminate.
Qed.

Lemma size_tenths_200 file_size :
  file_size > max_size →
  size_tenths file_size = 200 ↔ file_size ≤ max_size + 52428.
Proof.
  unfold max_size, size_tenths. intros Hsize.
  pose proof (round_half_even_near (10 * file_size) (1024 * 1024)) as Hnear.
  remember (Py.round_half_even (10 * file_size) (1024 * 1024)) as t.
  clear Heqt. lia.
Qed.

Lemma pretty_N_go_no_dot x s :
  Py.contains "."%char (pretty_N_go x s) = Py.contains "."%char s.
Proof.
  revert s. induction (N.lt_wf_0 x) as [x _ IH]; intros s.
  destruct (decide (0 < x)%N) as [Hpos|Hzero].
  - rewrite pretty_N_go_step by done.
    rewrite IH by (apply N.div_lt; lia). simpl.
    rewrite decide_False; [done|].
    unfold pretty_N_char. by repeat case_match.
  - assert (x = 0%N) as -> by lia. by rewrite pretty_N_go_0.
Qed.

Lemma str_int_no_dot n : 0 ≤ n → Py.contains "."%char (Py.str_int n) = false.
Proof.
  intros Hn. destruct n as [|p|p]; [done| |lia].
  unfold Py.str_int, pretty, pretty_Z, pretty, pretty_positive, pretty, pretty_N.
  rewrite decide_False by done. by rewrite pretty_N_go_no_dot.
Qed.

Lemma first_cut_unique sep a b r r' :
  Py.contains sep a = false →
  Py.contains sep b = false →
  a +:+ String sep r = b +:+ String sep r' →
  a = b ∧ r = r'.
Proof.
  revert b. induction a as [|c a IH]; intros [|d b]; simpl.
  - intros _ _. rewrite !app_empty_l. by intros [= ->].
  - intros _. rewrite app_empty_l, app_cons.
    destruct (decide (d = sep)); [done|]. by intros _ [= ? _].
  - rewrite app_empty_l, app_cons.
    destruct (decide (c = sep)); [done|]. by intros _ _ [= ? _].
  - rewrite !app_cons.
    destruct (decide (c = sep)); [done|]. destruct (decide (d = sep)); [done|].
    intros Ha Hb [= -> Hrest]. by destruct (IH b Ha Hb Hrest) as [-> ->].
Qed.

Lemma format_mb_20_0 file_size tail :
  0 ≤ size_tenths file_size →
  format_mb file_size +:+ String "M" tail = "20.0" +:+ String "M" tail →
  size_tenths file_size = 200.
Proof.
  intros Hpos. unfold format_mb. set (t := size_tenths file_size) in *.
  rewrite !app_assoc_str.
  change ("20.0" +:+ String "M" tail)
    with ("20" +:+ String "."%char ("0" +:+ String "M" tail)).
  change ("." +:+ Py.str_int (t `mod` 10) +:+ String "M" tail)
    with (String "."%char (Py.str_int (t `mod` 10) +:+ String "M" tail)).
  intros Heq. apply first_cut_unique in Heq as [Hint Hfrac];
    [|apply str_int_no_dot, Z.div_pos; lia|done].
  change "20" with (Py.str_int 20) in Hint.
  apply (inj pretty) in Hint.
  assert (0 ≤ t `mod` 10 < 10) as Hd by (apply Z.mod_pos_bound; lia).
  assert (t `mod` 10 = 0) as Hzero.
  { assert (t `mod` 10 = 0 ∨ t `mod` 10 = 1 ∨ t `mod` 10 = 2 ∨
            t `mod` 10 = 3 ∨ t `mod` 10 = 4 ∨ t `mod` 10 = 5 ∨
            t `mod` 10 = 6 ∨ t `mod` 10 = 7 ∨ t `mod` 10 = 8 ∨
            t `mod` 10 = 9) as Hcases by lia.
    decompose [or] Hcases; [done|..];
      match goal with H : t `mod` 10 = _ |- _ => rewrite H in Hfrac end;
      discriminate. }
  pose proof (Z.div_mod t 10). lia.
Qed.

(** X4: the size that is reported can read like the limit. For an accepted
    extension, a size over the cap is refused with the text 20.0MB, next to
    the limit of 20MB, exactly when it is over by at most 52428 bytes. *)
Theorem validate_file_just_over_cap filename file_size :
  file_ext filename ∈ allowed →
  file_size > 20 * 1024 * 1024 →
  (file_size ≤ 20 * 1024 * 1024 + 52428 ↔
   validate_file filename file_size =
     (false, "Arquivo muito grande (20.0MB). Limite: 20MB")).
Proof.
  change (20 * 1024 * 1024) with max_size. intros Hin Hsize.
  rewrite validate_file_rejects_size by done.
  rewrite <- size_tenths_200 by done. split.
  - intros Ht. unfold size_reason, format_mb. by rewrite Ht.
  - intros [= Hreason]. rewrite app_empty_l in Hreason.
    apply (format_mb_20_0 _ "B). Limite: 20MB"); [|exact Hreason].
    pose proof (round_half_even_near (10 * file_size) (1024 * 1024)).
    unfold size_tenths, max_size in *. lia.
Qed.

Lemma validate_file_just_over_cap_witness :
  validate_file "exame.pdf" (20 * 1024 * 1024 + 1) =
    (false, "Arquivo muito grande (20.0MB). Limite: 20MB").
Proof.
  apply (validate_file_just_over_cap "exame.pdf" (20 * 1024 * 1024 + 1));
    [by vm_compute|lia|lia].
Defined.

(** X5: the extension [validate_file] and [get_mime_type] work with is in
    normal form: it holds no dot and no upper-case letter, and a name that
    ends in a dot followed by it has that same extension. *)
Theorem file_ext_normal_form filename :
  Py.contains "."%char (file_ext filename) = false ∧
  Py.lower (file_ext filename) = file_ext filename ∧
  ∀ stem, file_ext (stem +:+ "." +:+ file_ext filename) = file_ext filename.
Proof.
  assert (Py.contains "."%char (file_ext filename) = false ∧
          Py.lower (file_ext filename) = file_ext filename) as [Hdot Hlow].
  { pose proof (file_ext_is_extension filename) as Hext.
    remember (file_ext filename) as ext eqn:E. clear E.
    destruct Hext as [name Hnone|stem suffix Hsuf]; [done|].
    by rewrite contains_lower, lower_idemp. }
  split; [done|]. split; [done|].
  intros stem. by rewrite file_ext_cut, Hlow.
Qed.

(** ** More on the request handler *)

Lemma validate_file_ok_inv filename file_size :
  fst (validate_file filename file_size) = true →
  file_ext filename ∈ allowed ∧ file_size ≤ max_size.
Proof.
  intros Hok.
  destruct (decide (file_ext filename ∈ allowed)) as [Hin|Hout];
    [|by rewrite validate_file_rejects_ext in Hok].
  split; [done|].
  destruct (decide (file_size ≤ max_size)) as [|Hgt]; [done|].
  by rewrite validate_file_rejects_size in Hok by (done || lia).
Qed.

Lemma model_calls_app tr tr' :
  model_calls (tr ++ tr') = model_calls tr ++ model_calls tr'.
Proof.
  induction tr as [|ev tr IH]; [done|]. destruct ev; simpl; by rewrite ?IH.
Qed.

Lemma handle_depends key generate request request' :
  method request = method request' →
  files_lookup "file" (files request) = files_lookup "file" (files request') →
  handle key generate request = handle key generate request'.
Proof.
  intros Hm Hf. unfold handle, extract, files_contains, files_getitem.
  by rewrite Hm, Hf.
Qed.

Lemma files_lookup_skip field extra fs :
  Forall (λ kv, fst kv ≠ field) extra →
  files_lookup field (extra ++ fs) = files_lookup field fs.
Proof.
  unfold files_lookup. induction 1 as [|kv extra Hkv _ IH]; [done|].
  simpl. by rewrite bool_decide_eq_false_2.
Qed.

(** X6: the model is only ever called for a validated upload. Whenever the
    trace of a request records a call of the model, the request is a [POST]
    to a configured service, the bytes sent are the bytes read from the
    field [file], their number is at most the cap, the extension is an
    accepted one, and the MIME type sent is the one resolved from the name,
    never the default. *)
Theorem model_call_guarded key generate request data mime :
  (data, mime) ∈ model_calls (snd (handle key generate request)) →
  method request = POST ∧
  truthy key = true ∧
  ∃ file,
    files_lookup "file" (files request) = Some file ∧
    read file = inr data ∧
    file_ext (filename file) ∈ allowed ∧
    len data ≤ 20 * 1024 * 1024 ∧
    mime = get_mime_type (filename file) ∧
    mime ≠ "application/octet-stream".
Proof.
  destruct (handle_path key generate request) as (response & tr & -> & Hp).
  simpl. intros Hcall.
  assert (∀ file file_bytes,
            uploads key request file →
            read file = inr file_bytes →
            fst (validate_file (filename file) (len file_bytes)) = true →
            (data, mime) = (file_bytes, get_mime_type (filename file)) →
            method request = POST ∧ truthy key = true ∧
            ∃ file,
              files_lookup "file" (files request) = Some file ∧
              read file = inr data ∧
              file_ext (filename file) ∈ allowed ∧
              len data ≤ 20 * 1024 * 1024 ∧
              mime = get_mime_type (filename file) ∧
              mime ≠ "application/octet-stream") as Hgood.
  { intros file file_bytes (Hm & Hk & Hf & Hn) Hr Hok [= -> ->].
    destruct (validate_file_ok_inv _ _ Hok) as [Hin Hle].
    split; [done|]. split; [done|]. exists file.
    split; [done|]. split; [done|]. split; [done|].
    split; [exact Hle|]. split; [done|].
    unfold get_mime_type. rewrite mime_default_iff. by intros Hout. }
  destruct Hp; rewrite ?model_calls_app in Hcall; simpl in Hcall;
    set_unfold in Hcall; try done;
    destruct Hcall as [Hcall|[]]; by eapply Hgood.
Qed.

Lemma model_call_guarded_witness :
  method (post "file" (part "nota.pdf" [Byte.x25; Byte.x50])) = POST ∧
  truthy (Some "secret") = true ∧
  ∃ file,
    files_lookup "file"
      (files (post "file" (part "nota.pdf" [Byte.x25; Byte.x50]))) = Some file ∧
    read file = inr [Byte.x25; Byte.x50] ∧
    file_ext (filename file) ∈ allowed ∧
    len [Byte.x25; Byte.x50] ≤ 20 * 1024 * 1024 ∧
    "application/pdf" = get_mime_type (filename file) ∧
    "application/pdf" ≠ "application/octet-stream".
Proof.
  apply (model_call_guarded (Some "secret") (answers "Masc, 45a.")
           (post "file" (part "nota.pdf" [Byte.x25; Byte.x50]))
           [Byte.x25; Byte.x50] "application/pdf").
  vm_compute. by left.
Defined.

(** X7: for an upload that is read and passes the validator, the model is
    called exactly once, with the bytes as they were read and the MIME type
    resolved from the name, whatever it then answers; no lower bound is put
    on the size, an empty file is sent too. *)
Theorem valid_upload_calls_model_once key generate request file file_bytes :
  uploads key request file →
  read file = inr file_bytes →
  fst (validate_file (filename file) (len file_bytes)) = true →
  model_calls (snd (handle key generate request)) =
    [(file_bytes, get_mime_type (filename file))].
Proof.
  intros (Hm & Hk & Hf & Hn) Hr Hok.
  erewrite extract_enters_try by done.
  pose proof (extract_try_valid generate file file_bytes seen_lookup Hr Hok)
    as Ht.
  destruct (generate file_bytes (get_mime_type (filename file)))
    as [e|[raw|]].
  - erewrite try_except_caught by done. simpl.
    by rewrite ?model_calls_app.
  - erewrite try_except_returned by done. simpl.
    by rewrite ?model_calls_app.
  - erewrite try_except_caught by done. simpl.
    by rewrite ?model_calls_app.
Qed.

Lemma valid_upload_calls_model_once_witness :
  model_calls
    (snd (handle (Some "secret") (fails {| exc_str := "empty input" |})
            (post "file" (part "vazio.png" [])))) =
    [([], "image/png")].
Proof.
  apply (valid_upload_calls_model_once (Some "secret")
           (fails {| exc_str := "empty input" |})
           (post "file" (part "vazio.png" [])) (part "vazio.png" []) []).
  - by repeat split.
  - reflexivity.
  - by vm_compute.
Defined.

(** X8: an upload the validator refuses is answered with HTTP 400, error
    INVALID_FILE and the reason of the validator, word for word, for a bad
    extension as for a size over the cap; the MIME type is not resolved and
    the model is not called. *)
Theorem invalid_upload_rejected key generate request file file_bytes :
  uploads key request file →
  read file = inr file_bytes →
  fst (validate_file (filename file) (len file_bytes)) = false →
  ∃ tr,
    handle key generate request =
      (inr {| body := JsonBody
                {| success := false;
                   error := Some "INVALID_FILE";
                   message :=
                     snd (validate_file (filename file) (len file_bytes));
                   metadata := None |};
              status := 400 |}, tr) ∧
    model_calls tr = [] ∧
    CallGetMimeType (filename file) ∉ tr.
Proof.
  intros (Hm & Hk & Hf & Hn) Hr Hbad.
  destruct (validate_file (filename file) (len file_bytes))
    as [ok reason] eqn:Hv.
  simpl in Hbad. subst ok. simpl.
  erewrite extract_enters_try by done.
  erewrite try_except_returned by (by eapply extract_try_invalid).
  eexists. split; [done|]. split; [done|].
  unfold seen_lookup, seen_validation. set_unfold. intros Hin.
  decompose [or] Hin; by try discriminate.
Qed.

Lemma invalid_upload_rejected_witness :
  ∃ tr,
    handle (Some "secret") (answers "Masc, 45a.")
      (post "file" (part "planilha.xlsx" [Byte.x50; Byte.x4b])) =
      (inr {| body := JsonBody
                {| success := false;
                   error := Some "INVALID_FILE";
                   message :=
                     "Formato .xlsx não suportado. Use: PDF, PNG, JPG, etc.";
                   metadata := None |};
              status := 400 |}, tr) ∧
    model_calls tr = [] ∧
    CallGetMimeType "planilha.xlsx" ∉ tr.
Proof.
  apply (invalid_upload_rejected (Some "secret") (answers "Masc, 45a.")
           (post "file" (part "planilha.xlsx" [Byte.x50; Byte.x4b]))
           (part "planilha.xlsx" [Byte.x50; Byte.x4b])
           [Byte.x50; Byte.x4b]).
  - by repeat split.
  - reflexivity.
  - by vm_compute.
Defined.

(** X10: a response with success true always describes a validated upload.
    Its status is 200, it has no error code, and its metadata name the file
    read from the field [file], with its number of bytes, between 0 and the
    cap, an accepted extension and the MIME type resolved from the name,
    which is never the default; its message does not start with the
    sentinel. *)
Theorem success_response_metadata key generate request j st tr :
  handle key generate request =
    (inr {| body := JsonBody j; status := st |}, tr) →
  success j = true →
  st = 200 ∧
  error j = None ∧
  Py.startswith (Py.upper (message j)) "NOT_CLINICAL" = false ∧
  ∃ m file file_bytes,
    metadata j = Some m ∧
    files_lookup "file" (files request) = Some file ∧
    read file = inr file_bytes ∧
    meta_filename m = filename file ∧
    size_bytes m = Z.of_nat (length file_bytes) ∧
    0 ≤ size_bytes m ≤ 20 * 1024 * 1024 ∧
    file_ext (meta_filename m) ∈ allowed ∧
    mime_type m = get_mime_type (meta_filename m) ∧
    mime_type m ≠ "application/octet-stream".
Proof.
  destruct (handle_path key generate request) as (response & tr' & -> & Hp).
  intros [= Hresp _] Hsucc.
  destruct Hp as [| | | | | | |file file_bytes raw (Hm & Hk & Hf & Hn) Hr Hok Hg];
    unfold failure in Hresp; try (injection Hresp as <- _; discriminate);
    try discriminate.
  unfold classified in Hresp.
  destruct (Py.startswith (Py.upper (Py.strip raw)) "NOT_CLINICAL") eqn:Hs;
    [unfold failure in Hresp; injection Hresp as <- _; discriminate|].
  injection Hresp as <- <-. simpl.
  destruct (validate_file_ok_inv _ _ Hok) as [Hin Hle].
  split; [done|]. split; [done|]. split; [done|].
  eexists _, file, file_bytes. split; [done|]. simpl.
  split; [done|]. split; [done|]. split; [done|]. split; [done|].
  split; [unfold len, max_size in *; lia|]. split; [done|]. split; [done|].
  unfold get_mime_type. rewrite mime_default_iff. by intros Hout.
Qed.

Lemma success_response_metadata_witness :
  ∃ m file file_bytes,
    metadata {| success := true;
                error := None;
                message := "Masc, 45a.";
                metadata := Some {| meta_filename := "nota.PNG";
                                    size_bytes := 3;
                                    mime_type := "image/png" |} |} = Some m ∧
    files_lookup "file"
      (files (post "file" (part "nota.PNG" [Byte.x89; Byte.x50; Byte.x4e])))
      = Some file ∧
    read file = inr file_bytes ∧
    meta_filename m = filename file ∧
    size_bytes m = Z.of_nat (length file_bytes) ∧
    0 ≤ size_bytes m ≤ 20 * 1024 * 1024 ∧
    file_ext (meta_filename m) ∈ allowed ∧
    mime_type m = get_mime_type (meta_filename m) ∧
    mime_type m ≠ "application/octet-stream".
Proof.
  apply (success_response_metadata (Some "secret") (answers " Masc, 45a. ")
           (post "file" (part "nota.PNG" [Byte.x89; Byte.x50; Byte.x4e]))
           {| success := true;
              error := None;
              message := "Masc, 45a.";
              metadata := Some {| meta_filename := "nota.PNG";
                                  size_bytes := 3;
                                  mime_type := "image/png" |} |}
           200
           (snd (handle (Some "secret") (answers " Masc, 45a. ")
                   (post "file"
                      (part "nota.PNG" [Byte.x89; Byte.x50; Byte.x4e]))))).
  - by vm_compute.
  - reflexivity.
Defined.

(** X11: only the first part named [file] counts. Parts under other names in
    front of it, and whatever follows it, a second [file] included, change
    neither the response nor the trace. *)
Theorem extract_reads_first_file_part key generate m extra file rest :
  Forall (λ kv, fst kv ≠ "file") extra →
  handle key generate
    {| method := m; files := extra ++ ("file", file) :: rest |} =
  handle key generate {| method := m; files := [("file", file)] |}.
Proof.
  intros Hextra. apply handle_depends; [done|]. simpl.
  by rewrite files_lookup_skip.
Qed.

Lemma extract_reads_first_file_part_witness :
  handle (Some "secret") (answers "Masc, 45a.")
    {| method := POST;
       files := [("note", part "a.txt" [Byte.x61])]
                ++ ("file", part "nota.pdf" [Byte.x25])
                   :: [("file", part "outra.exe" [Byte.x4d])] |} =
  handle (Some "secret") (answers "Masc, 45a.")
    {| method := POST; files := [("file", part "nota.pdf" [Byte.x25])] |}.
Proof.
  apply (extract_reads_first_file_part (Some "secret") (answers "Masc, 45a.")
           POST [("note", part "a.txt" [Byte.x61])]
           (part "nota.pdf" [Byte.x25])
           [("file", part "outra.exe" [Byte.x4d])]).
  repeat constructor. by vm_compute.
Defined.

(** X12: [/health] tells what [/extract] will do. It always answers 200 and
    healthy, and its flag [gemini_configured] is false exactly when every
    [POST] to [/extract] is answered with CONFIG_ERROR. *)
Theorem health_reports_config key :
  snd (health key) = 200 ∧
  health_status (fst (health key)) = "healthy" ∧
  (gemini_configured (fst (health key)) = false ↔
   ∀ generate request,
     method request = POST →
     ∃ tr,
       handle key generate request =
         (inr {| body := JsonBody
                   {| success := false;
                      error := Some "CONFIG_ERROR";
                      message :=
                        "API não configurada corretamente. Contate o administrador.";
                      metadata := None |};
                 status := 500 |}, tr)).
Proof.
  split; [done|]. split; [done|]. simpl. split.
  - intros Hk generate request Hm. rewrite extract_unconfigured by done.
    by eexists.
  - intros Hall. destruct (truthy key) eqn:Hk; [|done].
    destruct (Hall (answers "") {| method := POST; files := [] |} eq_refl)
      as [tr Htr].
    by rewrite extract_no_field in Htr.
Qed.

Lemma no_exception_logged (tr : list event) :
  Forall (λ ev, match ev with LogException _ => False | _ => True end) tr →
  ¬ ∃ msg, LogException msg ∈ tr.
Proof.
  intros Hall [msg Hin]. rewrite Forall_forall in Hall.
  by apply Hall in Hin.
Qed.

Lemma no_error_logged (tr : list event) :
  Forall (λ ev, match ev with LogError _ => False | _ => True end) tr →
  ¬ ∃ msg, LogError msg ∈ tr.
Proof.
  intros Hall [msg Hin]. rewrite Forall_forall in Hall.
  by apply Hall in Hin.
Qed.

(** X14: the log tells the two server errors apart. A response carries
    PROCESSING_ERROR exactly when the request logged an exception, and
    CONFIG_ERROR exactly when it logged the missing credential; no other
    response comes with either log entry. *)
Theorem server_errors_are_logged key generate request :
  ∃ response tr,
    handle key generate request = (inr response, tr) ∧
    ((∃ j, body response = JsonBody j ∧ error j = Some "PROCESSING_ERROR") ↔
     ∃ msg, LogException msg ∈ tr) ∧
    ((∃ j, body response = JsonBody j ∧ error j = Some "CONFIG_ERROR") ↔
     LogError "GEMINI_API_KEY não configurada" ∈ tr).
Proof.
  destruct (handle_path key generate request) as (response & tr & H & Hp).
  exists response, tr. split; [done|].
  assert (∀ tr0 : list event,
            Forall (λ ev, match ev with LogError _ => False | _ => True end)
              tr0 →
            LogError "GEMINI_API_KEY não configurada" ∉ tr0) as Hnoerr.
  { intros tr0 Hall Hin. apply (no_error_logged tr0 Hall). eauto. }
  destruct Hp; unfold classified, failure, seen_lookup, seen_validation,
    seen_extraction; try destruct (Py.startswith _ _); simpl; split; split;
    first
      [ by intros (j & [= <-] & [=])
      | by intros _; eexists
      | solve [intros _; eexists; in_trace]
      | solve [intros _; in_trace]
      | intros Hlog; exfalso; revert Hlog; apply no_exception_logged;
        by repeat constructor
      | intros Hlog; exfalso; revert Hlog; apply Hnoerr;
        by repeat constructor ].
Qed.

(** ** The service with Python's own string methods, step by step *)

Lemma try_except_inl {A} (body : M A) handler tr e tr' :
  body tr = (inl e, tr') → try_except body handler tr = handler e tr'.
Proof. intros H. unfold try_except. by rewrite H. Qed.

Lemma try_except_inr {A} (body : M A) handler tr x tr' :
  body tr = (inr x, tr') → try_except body handler tr = (inr x, tr').
Proof. intros H. unfold try_except. by rewrite H. Qed.

Section View.

Variable lower upper strip : string → string.
Variable key : option string.
Variable generate : list Byte.byte → string → Exception + option string.

Lemma view_options request :
  Unicode.method request = OPTIONS →
  Unicode.handle lower upper strip key generate request =
    (inr {| body := EmptyBody; status := 204 |}, []).
Proof.
  intros Hm. unfold Unicode.handle, Unicode.extract. by rewrite decide_True.
Qed.

Lemma view_unconfigured request :
  Unicode.method request = POST →
  truthy key = false →
  Unicode.handle lower upper strip key generate request =
    (inr (failure "CONFIG_ERROR"
            "API não configurada corretamente. Contate o administrador." 500),
     [LogError "GEMINI_API_KEY não configurada"]).
Proof.
  intros Hm Hk. unfold Unicode.handle, Unicode.extract.
  rewrite decide_False by (by rewrite Hm). by rewrite Hk.
Qed.

Lemma view_parse_raises request e :
  Unicode.method request = POST →
  truthy key = true →
  Unicode.files request = inl e →
  Unicode.handle lower upper strip key generate request =
    (inl e, [FilesContains "file"]).
Proof.
  intros Hm Hk Hf. unfold Unicode.handle, Unicode.extract.
  rewrite decide_False by (by rewrite Hm). rewrite Hk.
  unfold Unicode.files_contains. by rewrite Hf.
Qed.

Lemma view_no_field request parts :
  Unicode.method request = POST →
  truthy key = true →
  Unicode.files request = inr parts →
  files_lookup "file" parts = None →
  Unicode.handle lower upper strip key generate request =
    (inr (failure "NO_FILE"
            "Nenhum arquivo enviado. Envie um arquivo no campo 'file'." 400),
     [FilesContains "file"]).
Proof.
  intros Hm Hk Hp Hf. unfold Unicode.handle, Unicode.extract.
  rewrite decide_False by (by rewrite Hm). rewrite Hk.
  unfold Unicode.files_contains. rewrite Hp. run_view. rewrite Hf.
  by rewrite bool_decide_eq_false_2 by (by intros [??]).
Qed.

Lemma view_no_name request parts file :
  Unicode.method request = POST →
  truthy key = true →
  Unicode.files request = inr parts →
  files_lookup "file" parts = Some file →
  filename file = "" →
  Unicode.handle lower upper strip key generate request =
    (inr (failure "NO_FILE" "Arquivo sem nome." 400), seen_lookup).
Proof.
  intros Hm Hk Hp Hf Hn. unfold Unicode.handle, Unicode.extract.
  rewrite decide_False by (by rewrite Hm). rewrite Hk.
  unfold Unicode.files_contains, Unicode.files_getitem. rewrite Hp.
  run_view. rewrite Hf. rewrite bool_decide_eq_true_2 by eauto.
  simpl. by rewrite decide_True.
Qed.

Lemma view_enters_try request file :
  Unicode.uploads key request file →
  Unicode.handle lower upper strip key generate request =
    try_except (Unicode.extract_try lower upper strip generate file)
      extract_except seen_lookup.
Proof.
  intros (Hm & Hk & (parts & Hp & Hf) & Hn).
  unfold Unicode.handle, Unicode.extract.
  rewrite decide_False by (by rewrite Hm). rewrite Hk.
  unfold Unicode.files_contains, Unicode.files_getitem. rewrite Hp.
  cbv beta iota zeta delta [emit lift mbind mret mthrow M_bind M_ret M_throw].
  rewrite Hf. rewrite bool_decide_eq_true_2 by eauto.
  simpl. by rewrite decide_False.
Qed.

Lemma view_try_read_raises file e tr :
  read file = inl e →
  Unicode.extract_try lower upper strip generate file tr =
    (inl e, tr ++ [FileRead (filename file)]).
Proof. intros Hr. run_view. by rewrite Hr. Qed.

Lemma view_try_invalid file file_bytes reason tr :
  read file = inr file_bytes →
  Unicode.validate_file lower (filename file) (len file_bytes)
    = (false, reason) →
  Unicode.extract_try lower upper strip generate file tr =
    (inr (failure "INVALID_FILE" reason 400),
     tr ++ seen_validation file file_bytes).
Proof.
  intros Hr Hv. run_view. rewrite Hr, Hv. cbv beta iota delta [negb].
  by rewrite <- !(assoc_L (++)).
Qed.

Lemma view_try_valid file file_bytes tr :
  read file = inr file_bytes →
  fst (Unicode.validate_file lower (filename file) (len file_bytes)) = true →
  Unicode.extract_try lower upper strip generate file tr =
    match generate file_bytes (Unicode.get_mime_type lower (filename file)) with
    | inl e =>
        (inl e, tr ++ seen_validation file file_bytes
                   ++ Unicode.seen_extraction lower file file_bytes)
    | inr None =>
        (inl {| exc_str := "'NoneType' object has no attribute 'strip'" |},
         tr ++ seen_validation file file_bytes
            ++ Unicode.seen_extraction lower file file_bytes)
    | inr (Some raw) =>
        let result_text := strip raw in
        (inr
           (if Py.startswith (upper result_text) "NOT_CLINICAL" then
              failure "NOT_CLINICAL"
                ("Documento não contém informações clínicas: " +:+
                 (if Py.contains ":"%char result_text
                  then strip (Py.last_item
                                (Py.split_max ":"%char 1 result_text))
                  else "Documento não clínico"))
                200
            else
              {| body := JsonBody
                   {| success := true;
                      error := None;
                      message := result_text;
                      metadata :=
                        Some {| meta_filename := filename file;
                                size_bytes := len file_bytes;
                                mime_type :=
                                  Unicode.get_mime_type lower
                                    (filename file) |} |};
                 status := 200 |}),
         tr ++ seen_validation file file_bytes
            ++ Unicode.seen_extraction lower file file_bytes)
    end.
Proof.
  intros Hr Hv. run_view. rewrite Hr.
  destruct (Unicode.validate_file lower (filename file) (len file_bytes))
    as [ok reason].
  simpl in Hv. subst ok.
  unfold seen_validation, Unicode.seen_extraction.
  destruct (generate file_bytes (Unicode.get_mime_type lower (filename file)))
    as [e|[raw|]];
    cbv beta iota zeta delta [negb]; try destruct (Py.startswith _ _);
    by rewrite <- !(assoc_L (++)).
Qed.

End View.

(** ** The validator with Python's own [lower] *)

Lemma unicode_extension_of_file_ext lower filename ext :
  Unicode.extension_of lower filename ext →
  Unicode.file_ext lower filename = ext.
Proof.
  destruct 1 as [filename Hdot|filename stem suffix Hdot Hlow Hsuf].
  - unfold Unicode.file_ext. by rewrite Hdot.
  - unfold Unicode.file_ext. rewrite Hdot, Hlow. by apply split_last.
Qed.

Lemma unicode_validate_rejects_ext lower filename file_size :
  Unicode.file_ext lower filename ∉ allowed →
  Unicode.validate_file lower filename file_size =
    (false, ext_reason (Unicode.file_ext lower filename)).
Proof. intros H. unfold Unicode.validate_file. by rewrite decide_True. Qed.

(** C9: a name whose extension (the text after the last dot of the name in
    lower case, empty without a dot) is not one of the accepted ones is
    refused, and the reason spells that extension out. *)
Theorem rejection_names_extension lower filename ext file_size :
  Unicode.extension_of lower filename ext →
  ext ∉ spec_extensions →
  Unicode.validate_file lower filename file_size =
    (false, "Formato ." +:+ ext +:+ " não suportado. Use: PDF, PNG, JPG, etc.") ∧
  substring ext (snd (Unicode.validate_file lower filename file_size)).
Proof.
  intros Hext Hout. apply unicode_extension_of_file_ext in Hext. subst ext.
  rewrite <- allowed_spec in Hout.
  rewrite unicode_validate_rejects_ext by done.
  split; [done|]. apply substring_middle.
Qed.

Lemma rejection_names_extension_witness :
  Unicode.validate_file Py.lower "planilha.backup.XLSX" 1000 =
    (false, "Formato .xlsx não suportado. Use: PDF, PNG, JPG, etc.").
Proof.
  apply (rejection_names_extension Py.lower "planilha.backup.XLSX" "xlsx" 1000).
  - exact (Unicode.extension_last Py.lower "planilha.backup.XLSX"
             "planilha.backup" "xlsx" eq_refl eq_refl eq_refl).
  - not_listed.
Defined.

(** C10: the extension is checked before the size. A name whose extension is
    not accepted gets the extension reason at every size, over the cap too,
    and the size reason is only ever given for a name whose extension is
    accepted. *)
Theorem extension_checked_first lower filename ext :
  Unicode.extension_of lower filename ext →
  (ext ∉ spec_extensions →
   ∀ file_size,
     Unicode.validate_file lower filename file_size = (false, ext_reason ext) ∧
     snd (Unicode.validate_file lower filename file_size)
       ≠ size_reason file_size) ∧
  (∀ file_size reported,
     snd (Unicode.validate_file lower filename file_size)
       = size_reason reported →
     ext ∈ spec_extensions).
Proof.
  intros Hext. apply unicode_extension_of_file_ext in Hext. subst ext.
  split.
  - intros Hout file_size. rewrite <- allowed_spec in Hout.
    rewrite unicode_validate_rejects_ext by done.
    split; [done|]. apply ext_reason_not_size_reason.
  - intros file_size reported Hreason. apply allowed_spec.
    destruct (decide (Unicode.file_ext lower filename ∈ allowed))
      as [Hin|Hout]; [done|].
    rewrite unicode_validate_rejects_ext in Hreason by done.
    by apply ext_reason_not_size_reason in Hreason.
Qed.

Lemma extension_checked_first_witness :
  Unicode.validate_file Py.lower "setup.exe" (25 * 1024 * 1024) =
    (false, "Formato .exe não suportado. Use: PDF, PNG, JPG, etc.").
Proof.
  pose (Hdot := Unicode.extension_last Py.lower "setup.exe" "setup" "exe"
                  eq_refl eq_refl eq_refl).
  apply (extension_checked_first Py.lower "setup.exe" "exe" Hdot).
  not_listed.
Defined.

Lemma unicode_file_ext_is_extension lower filename :
  (∀ s, Py.contains "."%char (lower s) = Py.contains "."%char s) →
  Unicode.extension_of lower filename (Unicode.file_ext lower filename).
Proof.
  intros Hdots. unfold Unicode.file_ext.
  destruct (Py.contains "."%char filename) eqn:Hdot; [|by constructor].
  assert (Py.contains "."%char (lower filename) = true) as Hlow
    by (by rewrite Hdots).
  destruct (contains_cut _ _ Hlow) as (stem & suffix & Hcut & Hsuf).
  rewrite Hcut, split_last by done.
  by eapply Unicode.extension_last.
Qed.

(** X2: letter case in a file name does not matter. Two names that Python's
    [lower] makes equal get the same verdict, with the same reason, from
    [validate_file] and the same MIME type from [get_mime_type]; all that is
    used of [lower] is that it neither adds nor removes a dot. *)
Theorem filename_case_ignored lower a b file_size :
  (∀ s, Py.contains "."%char (lower s) = Py.contains "."%char s) →
  lower a = lower b →
  Unicode.validate_file lower a file_size
    = Unicode.validate_file lower b file_size ∧
  Unicode.get_mime_type lower a = Unicode.get_mime_type lower b.
Proof.
  intros Hdots Hab.
  assert (Unicode.file_ext lower a = Unicode.file_ext lower b) as Hext.
  { unfold Unicode.file_ext. by rewrite <- (Hdots a), <- (Hdots b), Hab. }
  unfold Unicode.validate_file, Unicode.get_mime_type. by rewrite Hext.
Qed.

Lemma filename_case_ignored_witness :
  Unicode.validate_file Py.lower "Raio-X.JPEG" 2048
    = Unicode.validate_file Py.lower "raio-x.jpeg" 2048 ∧
  Unicode.get_mime_type Py.lower "Raio-X.JPEG"
    = Unicode.get_mime_type Py.lower "raio-x.jpeg".
Proof.
  apply (filename_case_ignored Py.lower "Raio-X.JPEG" "raio-x.jpeg" 2048).
  - exact contains_lower.
  - reflexivity.
Defined.

(** ** The request handler with Python's own string methods *)

(** C1: when the text the model returned, trimmed by Python's [strip],
    starts with NOT_CLINICAL once Python's [upper] is applied to it, the
    answer is HTTP 200 with success false and error NOT_CLINICAL, and its
    message ends with the reason: what [strip] leaves of the text after the
    first colon, or a default phrase when there is no colon. *)
Theorem not_clinical_response lower upper strip key generate request file
    file_bytes raw :
  Unicode.uploads key request file →
  Unicode.extraction_returns lower generate file file_bytes raw →
  Py.startswith (upper (strip raw)) "NOT_CLINICAL" = true →
  ∃ reason tr,
    Unicode.handle lower upper strip key generate request =
      (inr {| body := JsonBody
                {| success := false;
                   error := Some "NOT_CLINICAL";
                   message :=
                     "Documento não contém informações clínicas: " +:+ reason;
                   metadata := None |};
              status := 200 |}, tr) ∧
    substring reason
      ("Documento não contém informações clínicas: " +:+ reason) ∧
    (Py.contains ":"%char (strip raw) = true →
     ∃ before after,
       strip raw = before +:+ ":" +:+ after ∧
       Py.contains ":"%char before = false ∧
       reason = strip after) ∧
    (Py.contains ":"%char (strip raw) = false →
     reason = "Documento não clínico").
Proof.
  intros Hup (Hr & Hv & Hg) Hs.
  erewrite view_enters_try by done.
  erewrite try_except_inr;
    [|by rewrite (view_try_valid _ _ _ _ _ _ _ Hr Hv), Hg].
  cbv zeta. rewrite Hs. unfold failure.
  destruct (Py.contains ":"%char (strip raw)) eqn:Hcolon.
  - destruct (contains_first _ _ Hcolon) as (before & after & Hcut & Hb).
    eexists _, _. split; [done|]. split.
    { exists "Documento não contém informações clínicas: ", "".
      by rewrite app_empty_r. }
    split; [|done]. intros _. exists before, after.
    split; [done|]. split; [done|].
    by rewrite Hcut, split_max_first.
  - eexists _, _. split; [done|]. split.
    { exists "Documento não contém informações clínicas: ", "".
      by rewrite app_empty_r. }
    done.
Qed.

Lemma not_clinical_response_witness :
  ∃ reason tr,
    Unicode.handle Py.lower upper_with_dotless_i Py.strip (Some "secret")
      (answers "not_clınıcal: administrative document ")
      (Unicode.post "file" (part "fatura.pdf" [Byte.x25; Byte.x50])) =
      (inr {| body := JsonBody
                {| success := false;
                   error := Some "NOT_CLINICAL";
                   message :=
                     "Documento não contém informações clínicas: " +:+ reason;
                   metadata := None |};
              status := 200 |}, tr) ∧
    reason = "administrative document".
Proof.
  destruct (not_clinical_response Py.lower upper_with_dotless_i Py.strip
              (Some "secret")
              (answers "not_clınıcal: administrative document ")
              (Unicode.post "file" (part "fatura.pdf" [Byte.x25; Byte.x50]))
              (part "fatura.pdf" [Byte.x25; Byte.x50])
              [Byte.x25; Byte.x50] "not_clınıcal: administrative document ")
    as (reason & tr & Hresp & _ & Hcolon & _).
  - split; [done|]. split; [done|]. split; [|done]. by eexists.
  - by repeat split.
  - reflexivity.
  - exists reason, tr. split; [exact Hresp|].
    vm_compute in Hresp. by simplify_eq.
Defined.

(** C2: when the text the model returned, trimmed by Python's [strip], does
    not start with NOT_CLINICAL once Python's [upper] is applied to it, the
    answer is HTTP 200 with success true, the trimmed text as message, and
    metadata made of the uploaded file name, the number of bytes that were
    uploaded and the MIME type [get_mime_type] gives for that name. *)
Theorem success_response lower upper strip key generate request file
    file_bytes raw :
  Unicode.uploads key request file →
  Unicode.extraction_returns lower generate file file_bytes raw →
  Py.startswith (upper (strip raw)) "NOT_CLINICAL" = false →
  ∃ tr,
    Unicode.handle lower upper strip key generate request =
      (inr {| body := JsonBody
                {| success := true;
                   error := None;
                   message := strip raw;
                   metadata :=
                     Some {| meta_filename := filename file;
                             size_bytes := Z.of_nat (length file_bytes);
                             mime_type :=
                               Unicode.get_mime_type lower (filename file) |} |};
              status := 200 |}, tr).
Proof.
  intros Hup (Hr & Hv & Hg) Hs.
  erewrite view_enters_try by done.
  erewrite try_except_inr;
    [|by rewrite (view_try_valid _ _ _ _ _ _ _ Hr Hv), Hg].
  cbv zeta. rewrite Hs. by eexists.
Qed.

Lemma success_response_witness :
  ∃ tr,
    Unicode.handle Py.lower Py.upper Py.strip (Some "secret")
      (answers "  Masc, 45a. QP: dor toracica ha 2h. ")
      (Unicode.post "file" (part "nota.PNG" [Byte.x89; Byte.x50; Byte.x4e])) =
      (inr {| body := JsonBody
                {| success := true;
                   error := None;
                   message := "Masc, 45a. QP: dor toracica ha 2h.";
                   metadata :=
                     Some {| meta_filename := "nota.PNG";
                             size_bytes := 3;
                             mime_type := "image/png" |} |};
              status := 200 |}, tr).
Proof.
  apply (success_response Py.lower Py.upper Py.strip (Some "secret")
           (answers "  Masc, 45a. QP: dor toracica ha 2h. ")
           (Unicode.post "file" (part "nota.PNG" [Byte.x89; Byte.x50; Byte.x4e]))
           (part "nota.PNG" [Byte.x89; Byte.x50; Byte.x4e])
           [Byte.x89; Byte.x50; Byte.x4e]
           "  Masc, 45a. QP: dor toracica ha 2h. ").
  - split; [done|]. split; [done|]. split; [|done]. by eexists.
  - by repeat split.
  - reflexivity.
Defined.

(** C5 as stated fails: [request.files] is read before the [try] block, and
    an exception raised there, when the body is parsed, leaves the view; no
    response is built and nothing is logged. *)
Lemma parse_exception_escapes :
  Unicode.handle Py.lower Py.upper Py.strip (Some "secret") (answers "")
    {| Unicode.method := POST;
       Unicode.files := inl {| exc_str := "413 Request Entity Too Large" |} |} =
    (inl {| exc_str := "413 Request Entity Too Large" |},
     [FilesContains "file"]) ∧
  ∀ response tr,
    Unicode.handle Py.lower Py.upper Py.strip (Some "secret") (answers "")
      {| Unicode.method := POST;
         Unicode.files := inl {| exc_str := "413 Request Entity Too Large" |} |}
      ≠ (inr response, tr).
Proof. split; [reflexivity|]. by intros response tr [=]. Qed.

Lemma view_raises_only_parse lower upper strip key generate request e tr :
  Unicode.handle lower upper strip key generate request = (inl e, tr) →
  Unicode.files request = inl e.
Proof.
  destruct (Unicode.method request) eqn:Hm;
    [|by rewrite view_options].
  destruct (truthy key) eqn:Hk; [|by rewrite view_unconfigured].
  destruct (Unicode.files request) as [e'|parts] eqn:Hp.
  { rewrite (view_parse_raises _ _ _ _ _ _ e') by done. by intros [= ->]. }
  destruct (files_lookup "file" parts) as [file|] eqn:Hf;
    [|by erewrite view_no_field].
  destruct (decide (filename file = "")) as [Hn|Hn];
    [by erewrite view_no_name|].
  assert (Unicode.uploads key request file) as Hup.
  { split; [done|]. split; [done|]. split; [by eexists|done]. }
  erewrite view_enters_try by done.
  destruct (Unicode.extract_try lower upper strip generate file seen_lookup)
    as [[e'|response] tr'] eqn:Ht.
  - by erewrite try_except_inl.
  - by erewrite try_except_inr.
Qed.

(** C5, amended: an exception raised inside the [try] block, in reading the
    upload, in the call of the model or in trimming its response, is caught:
    the answer is HTTP 500 with error PROCESSING_ERROR and one fixed
    message, the same for every exception, whose text only goes to the log.
    The only exception that leaves the view is one raised by
    [request.files] itself, before the [try] block. *)
Theorem processing_exception_caught lower upper strip key generate request
    file e :
  Unicode.uploads key request file →
  Unicode.processing_raises lower generate file e →
  (∃ tr,
     Unicode.handle lower upper strip key generate request =
       (inr {| body := JsonBody
                 {| success := false;
                    error := Some "PROCESSING_ERROR";
                    message := "Erro ao processar documento. Tente novamente.";
                    metadata := None |};
               status := 500 |}, tr) ∧
     LogException ("Erro ao processar: " +:+ exc_str e) ∈ tr) ∧
  (∀ any_request escaped tr,
     Unicode.handle lower upper strip key generate any_request
       = (inl escaped, tr) →
     Unicode.files any_request = inl escaped).
Proof.
  intros Hup Hraise.
  split; [|intros any_request escaped tr; apply view_raises_only_parse].
  erewrite view_enters_try by done.
  assert (∃ tr', Unicode.extract_try lower upper strip generate file
                   seen_lookup = (inl e, tr')) as [tr' Ht].
  { destruct Hraise as [Hr|(file_bytes & Hr & Hv & [Hg|[Hg ->]])].
    - rewrite (view_try_read_raises _ _ _ _ _ _ _ Hr). by eexists.
    - rewrite (view_try_valid _ _ _ _ _ _ _ Hr Hv), Hg. by eexists.
    - rewrite (view_try_valid _ _ _ _ _ _ _ Hr Hv), Hg. by eexists. }
  erewrite try_except_inl by done.
  eexists. split; [done|]. apply elem_of_app. right. in_trace.
Qed.

Lemma processing_exception_caught_witness :
  ∃ tr,
    Unicode.handle Py.lower Py.upper Py.strip (Some "secret")
      (fails {| exc_str := "401 API key not valid: secret" |})
      (Unicode.post "file" (part "nota.pdf" [Byte.x25; Byte.x50])) =
      (inr {| body := JsonBody
                {| success := false;
                   error := Some "PROCESSING_ERROR";
                   message := "Erro ao processar documento. Tente novamente.";
                   metadata := None |};
              status := 500 |}, tr) ∧
    LogException "Erro ao processar: 401 API key not valid: secret" ∈ tr.
Proof.
  apply (processing_exception_caught Py.lower Py.upper Py.strip (Some "secret")
           (fails {| exc_str := "401 API key not valid: secret" |})
           (Unicode.post "file" (part "nota.pdf" [Byte.x25; Byte.x50]))
           (part "nota.pdf" [Byte.x25; Byte.x50])
           {| exc_str := "401 API key not valid: secret" |}).
  - split; [done|]. split; [done|]. split; [|done]. by eexists.
  - right. exists [Byte.x25; Byte.x50]. split; [done|]. split; [by vm_compute|].
    by left.
Defined.

(** X9: a response of the view always has its status, its [success] flag,
    its [error] code and the presence of [metadata] as in one of six rows:
    200 with success and metadata, 200 with NOT_CLINICAL, 400 with NO_FILE
    or INVALID_FILE, 500 with CONFIG_ERROR or PROCESSING_ERROR; a body that
    is not JSON is the empty 204 of an [OPTIONS] request, and only that. The
    view does return a response whenever the body of the request parses. *)
Theorem view_response_rows lower upper strip key generate request :
  (∀ response tr,
     Unicode.handle lower upper strip key generate request
       = (inr response, tr) →
     match body response with
     | EmptyBody => Unicode.method request = OPTIONS ∧ status response = 204
     | JsonBody j =>
         Unicode.method request = POST ∧
         (status response, success j, error j, has_metadata j) ∈ response_rows
     end) ∧
  ((∃ parts, Unicode.files request = inr parts) →
   ∃ response tr,
     Unicode.handle lower upper strip key generate request
       = (inr response, tr)).
Proof.
  split.
  - intros response tr.
    destruct (Unicode.method request) eqn:Hm;
      [|rewrite view_options by done; by intros [= <- _]].
    destruct (truthy key) eqn:Hk.
    2:{ rewrite view_unconfigured by done. intros [= <- _]. simpl.
        split; [done|]. unfold response_rows. set_unfold. auto 10. }
    destruct (Unicode.files request) as [e|parts] eqn:Hp;
      [by rewrite (view_parse_raises _ _ _ _ _ _ e)|].
    destruct (files_lookup "file" parts) as [file|] eqn:Hf.
    2:{ erewrite view_no_field by done. intros [= <- _]. simpl.
        split; [done|]. unfold response_rows. set_unfold. auto 10. }
    destruct (decide (filename file = "")) as [Hn|Hn].
    { erewrite view_no_name by done. intros [= <- _]. simpl.
      split; [done|]. unfold response_rows. set_unfold. auto 10. }
    assert (Unicode.uploads key request file) as Hup.
    { split; [done|]. split; [done|]. split; [by eexists|done]. }
    erewrite view_enters_try by done.
    destruct (read file) as [e|file_bytes] eqn:Hr.
    { erewrite try_except_inl by (by apply view_try_read_raises).
      intros [= <- _]. simpl.
      split; [done|]. unfold response_rows. set_unfold. auto 10. }
    destruct (Unicode.validate_file lower (filename file) (len file_bytes))
      as [[|] reason] eqn:Hv.
    2:{ erewrite try_except_inr by (by eapply view_try_invalid).
        intros [= <- _]. simpl.
        split; [done|]. unfold response_rows. set_unfold. auto 10. }
    assert (fst (Unicode.validate_file lower (filename file) (len file_bytes))
              = true) as Hok by (by rewrite Hv).
    pose proof (view_try_valid lower upper strip generate file file_bytes
                  seen_lookup Hr Hok) as Ht.
    destruct (generate file_bytes
                (Unicode.get_mime_type lower (filename file)))
      as [e|[raw|]].
    + erewrite try_except_inl by done. intros [= <- _]. simpl.
      split; [done|]. unfold response_rows. set_unfold. auto 10.
    + erewrite try_except_inr by done. cbv zeta.
      destruct (Py.startswith _ _); intros [= <- _]; simpl;
        (split; [done|]); unfold response_rows, has_metadata; simpl;
        set_unfold; auto 10.
    + erewrite try_except_inl by done. intros [= <- _]. simpl.
      split; [done|]. unfold response_rows. set_unfold. auto 10.
  - intros [parts Hp].
    destruct (Unicode.handle lower upper strip key generate request)
      as [[e|response] tr] eqn:H; [|by eauto].
    apply view_raises_only_parse in H. congruence.
Qed.

(** X13: a model answer of which Python's [strip] leaves nothing, white
    space only or empty, is reported as a success with an empty message;
    all that is used of [upper] is that it keeps the empty text empty. *)
Theorem blank_answer_succeeds lower upper strip key generate request file
    file_bytes raw :
  upper "" = "" →
  Unicode.uploads key request file →
  Unicode.extraction_returns lower generate file file_bytes raw →
  strip raw = "" →
  ∃ tr,
    Unicode.handle lower upper strip key generate request =
      (inr {| body := JsonBody
                {| success := true;
                   error := None;
                   message := "";
                   metadata :=
                     Some {| meta_filename := filename file;
                             size_bytes := Z.of_nat (length file_bytes);
                             mime_type :=
                               Unicode.get_mime_type lower (filename file) |} |};
              status := 200 |}, tr).
Proof.
  intros Hupper Hup (Hr & Hv & Hg) Hstrip.
  erewrite view_enters_try by done.
  erewrite try_except_inr;
    [|by rewrite (view_try_valid _ _ _ _ _ _ _ Hr Hv), Hg].
  cbv zeta. rewrite Hstrip, Hupper. by eexists.
Qed.

Lemma blank_answer_succeeds_witness :
  ∃ tr,
    Unicode.handle Py.lower Py.upper Py.strip (Some "secret") (answers "   ")
      (Unicode.post "file" (part "nota.pdf" [Byte.x25; Byte.x50])) =
      (inr {| body := JsonBody
                {| success := true;
                   error := None;
                   message := "";
                   metadata :=
                     Some {| meta_filename := "nota.pdf";
                             size_bytes := 2;
                             mime_type := "application/pdf" |} |};
              status := 200 |}, tr).
Proof.
  apply (blank_answer_succeeds Py.lower Py.upper Py.strip (Some "secret")
           (answers "   ")
           (Unicode.post "file" (part "nota.pdf" [Byte.x25; Byte.x50]))
           (part "nota.pdf" [Byte.x25; Byte.x50])
           [Byte.x25; Byte.x50] "   ").
  - reflexivity.
  - split; [done|]. split; [done|]. split; [|done]. by eexists.
  - by repeat split.
  - reflexivity.
Defined.

(** ** The two parts agree *)

(** The service of the first part is the one with Python's own string
    methods, taken at the ASCII case mapping and white space and at a
    request whose body parses. *)
Lemma handle_parsed key generate request :
  handle key generate request =
    Unicode.handle Py.lower Py.upper Py.strip key generate (parsed request).
Proof. reflexivity. Qed.

Lemma validate_file_ascii filename file_size :
  validate_file filename file_size
    = Unicode.validate_file Py.lower filename file_size.
Proof. reflexivity. Qed.

Lemma get_mime_type_ascii filename :
  get_mime_type filename = Unicode.get_mime_type Py.lower filename.
Proof. reflexivity. Qed.
